(** * SceneManager: texture registry, material registry, transform composer
      and shader state facade of the CS-330 scene (SceneManager.cpp)

    The member functions of [SceneManager] are embedded as computations over
    an explicit world: the fields of the object, the calls received by the
    three external collaborators (OpenGL, the shader manager, the mesh
    library) in the order they are issued, and what the outside world
    answers (decoded image files, texture names handed out by the driver).
    A computation that performs an operation C++ leaves undefined (an array
    access out of bounds, a call through a null pointer) has no result.
    Loops run on fuel computed from the loop bound; the theorems show that
    they return, so the fuel is enough. *)

From Stdlib Require Import ZArith QArith Lia.
From stdpp Require Import base option list strings.

Open Scope Z_scope.

(** ** Values *)

(** A C++ [float] is only ever stored, passed and handed to a collaborator
    by this file; it is represented by the decimal written in the source. *)
Definition float := Q.
Bind Scope Q_scope with float.

Record vec2 := Vec2 { v2_x : float; v2_y : float }.
Record vec3 := Vec3 { v3_x : float; v3_y : float; v3_z : float }.
Record vec4 := Vec4 { v4_r : float; v4_g : float; v4_b : float; v4_a : float }.

(** [glm] is an external library: its results are kept as the terms that
    built them, so that two matrices are equal exactly when they were
    composed from the same factors in the same order. *)
Inductive angle :=
| glm_radians (degrees : float).

Inductive mat4 :=
| glm_scale (v : vec3)
| glm_rotate (a : angle) (axis : vec3)
| glm_translate (v : vec3)
| mat4_mul (a b : mat4).

Declare Scope mat4_scope.
Delimit Scope mat4_scope with mat4.
Bind Scope mat4_scope with mat4.
Infix "*" := mat4_mul : mat4_scope.

(** [GLuint] is an unsigned 32-bit integer, [int] a signed one. *)
Definition GLuint := Z.

(** The conversion the assignment [int textureID = m_textureIDs[index].ID]
    performs: values from [2^31] on wrap around to the negatives. *)
Definition int_of_GLuint (u : GLuint) : Z :=
  if u <? 2 ^ 31 then u else u - 2 ^ 32.

(** [std::string::compare]: zero exactly on equal strings. *)
Definition string_compare (a b : string) : Z :=
  match String.compare a b with
  | Eq => 0
  | Lt => -1
  | Gt => 1
  end.

(** ** OpenGL, stb_image, shader manager and mesh library calls *)

Definition GL_TEXTURE_2D : Z := 0x0DE1.
Definition GL_TEXTURE_WRAP_S : Z := 0x2802.
Definition GL_TEXTURE_WRAP_T : Z := 0x2803.
Definition GL_TEXTURE_MIN_FILTER : Z := 0x2801.
Definition GL_TEXTURE_MAG_FILTER : Z := 0x2800.
Definition GL_REPEAT : Z := 0x2901.
Definition GL_LINEAR : Z := 0x2601.
Definition GL_RGB : Z := 0x1907.
Definition GL_RGBA : Z := 0x1908.
Definition GL_RGB8 : Z := 0x8051.
Definition GL_RGBA8 : Z := 0x8058.
Definition GL_UNSIGNED_BYTE : Z := 0x1401.
Definition GL_TEXTURE0 : Z := 0x84C0.

(** What [stbi_load] hands back for a file it could decode. *)
Record stb_image := StbImage {
  img_width : Z;
  img_height : Z;
  img_channels : Z;
  img_data : list Z
}.

Inductive gl_call :=
| glGenTextures (n : Z) (name : GLuint)
| glDeleteTextures (n : Z) (name : GLuint)
| glBindTexture (target : Z) (texture : GLuint)
| glTexParameteri (target pname param : Z)
| glTexImage2D (target level internalformat width height border format type : Z)
               (pixels : list Z)
| glGenerateMipmap (target : Z)
| glActiveTexture (texture : Z).

Inductive stb_call :=
| stbi_set_flip_vertically_on_load (flag : bool)
| stbi_load (filename : string)
| stbi_image_free (image : stb_image).

Inductive shader_call :=
| setMat4Value (name : string) (m : mat4)
| setVec4Value (name : string) (v : vec4)
| setVec3Value (name : string) (v : vec3)
| setVec2Value (name : string) (v : vec2)
| setIntValue (name : string) (i : Z)
| setBoolValue (name : string) (b : bool)
| setFloatValue (name : string) (f : float)
| setSampler2DValue (name : string) (slot : Z).

Inductive mesh_call :=
| LoadPlaneMesh
| LoadBoxMesh
| LoadCylinderMesh
| LoadSphereMesh
| DrawPlaneMesh
| DrawBoxMesh
| DrawBoxMeshLines
| DrawCylinderMesh
| DrawCylinderMeshLines
| DrawHalfSphereMesh
| DrawHalfSphereMeshLines.

Inductive cout_item :=
| out_str (s : string)
| out_int (i : Z)
| out_endl.

Inductive event :=
| GL (c : gl_call)
| Stb (c : stb_call)
| Shader (c : shader_call)
| Mesh (c : mesh_call)
| Cout (items : list cout_item).

(** ** The object and its world *)

(** Modelled from the spec: SceneManager.h is missing; [TEXTURE_INFO] is
    the TextureEntry of the data model (a tag and a GPU texture handle; the
    slot index is the position in [m_textureIDs]), with the field names and
    types the source uses. *)
Module TEXTURE_INFO.
Record t := Make {
  ID : GLuint;
  tag : string
}.
End TEXTURE_INFO.

(** Modelled from the spec: SceneManager.h is missing; [OBJECT_MATERIAL] is
    the MaterialEntry of the data model (tag, diffuse color, specular color,
    shininess), with the field names the source uses. *)
Module OBJECT_MATERIAL.
Record t := Make {
  diffuseColor : vec3;
  specularColor : vec3;
  shininess : float;
  tag : string
}.
End OBJECT_MATERIAL.

(** Modelled from the spec: SceneManager.h is missing; the number of
    elements of the array [m_textureIDs] is the 16 texture units of the
    data model. *)
Definition MAX_TEXTURES : Z := 16.

(** Modelled from the spec: SceneManager.h is missing; the fields are those
    the member functions use. [m_pShaderManager] is [None] for a null
    pointer and the address of the shader manager otherwise;
    [m_basicMeshes] always points to the mesh library after construction
    and is left out. *)
Record SceneManager := MkSceneManager {
  m_pShaderManager : option positive;
  m_textureIDs : list TEXTURE_INFO.t;
  m_loadedTextures : Z;
  m_objectMaterials : list OBJECT_MATERIAL.t
}.

(** What the outside answers: the image each file decodes to ([None] when
    [stbi_load] returns a null pointer), the name the driver writes back at
    its k-th [glGenTextures], and what the three fields of an uninitialised
    local [OBJECT_MATERIAL] happen to hold, which may depend on all that
    was done before. *)
Record Outside := MkOutside {
  decode : string -> option stb_image;
  gen_name : nat -> GLuint;
  indeterminate : list event -> vec3 * vec3 * float
}.

Record World := MkWorld {
  this : SceneManager;
  outside : Outside;
  generated : nat;
  trace : list event
}.

Definition with_this (f : SceneManager -> SceneManager) (w : World) : World :=
  MkWorld (f (this w)) (outside w) (generated w) (trace w).

(** ** Computations *)

Definition M (A : Type) : Type := World -> option (A * World).

#[global] Instance M_ret : MRet M := fun A a w => Some (a, w).

#[global] Instance M_bind : MBind M := fun A B f m w =>
  match m w with
  | Some (a, w') => f a w'
  | None => None
  end.

(** Undefined behaviour. *)
Definition undefined {A} : M A := fun _ => None.

Definition get_this : M SceneManager := fun w => Some (this w, w).

Definition emit (e : event) : M unit := fun w =>
  Some (tt, MkWorld (this w) (outside w) (generated w) (trace w ++ [e])).

Definition gl (c : gl_call) : M unit := emit (GL c).
Definition cout (items : list cout_item) : M unit := emit (Cout items).
Definition mesh (c : mesh_call) : M unit := emit (Mesh c).

(** A call through [m_pShaderManager]: undefined on a null pointer. *)
Definition shader (c : shader_call) : M unit := fun w =>
  match m_pShaderManager (this w) with
  | Some _ => emit (Shader c) w
  | None => None
  end.

(** [glGenTextures(1, &x)]: the driver's next name, to be stored in [x]. *)
Definition gl_gen_texture : M GLuint := fun w =>
  let name := gen_name (outside w) (generated w) in
  Some (name, MkWorld (this w) (outside w) (S (generated w))
                      (trace w ++ [GL (glGenTextures 1 name)])).

(** [stbi_load(filename, &width, &height, &colorChannels, 0)]. *)
Definition stb_load (filename : string) : M (option stb_image) := fun w =>
  Some (decode (outside w) filename,
        MkWorld (this w) (outside w) (generated w)
                (trace w ++ [Stb (stbi_load filename)])).

(** A [while] loop over the variables [s] it reads and writes. The fuel
    bounds the number of iterations; the test comes first, so a loop whose
    test fails needs none. *)
Fixpoint while {S : Type} (fuel : nat) (test : S -> bool) (body : S -> option S)
    (s : S) : option S :=
  if test s then
    match fuel with
    | O => None
    | Datatypes.S fuel' =>
        match body s with
        | Some s' => while fuel' test body s'
        | None => None
        end
    end
  else Some s.

(** Element [i] of a C array or vector: undefined out of bounds. *)
Definition at_index {A} (l : list A) (i : Z) : option A :=
  if (0 <=? i) then l !! Z.to_nat i else None.

Definition store_index {A} (l : list A) (i : Z) (x : A) : option (list A) :=
  if (0 <=? i) && (i <? Z.of_nat (length l)) then Some (<[Z.to_nat i := x]> l)
  else None.

(** [for (int i = start; test(i); i++) body(i)], on fuel like [while]. *)
Fixpoint for_int (fuel : nat) (test : Z -> M bool) (body : Z -> M unit) (i : Z)
    : M unit :=
  b ← test i;
  if b : bool then
    match fuel with
    | O => undefined
    | S fuel' => body i;; for_int fuel' test body (i + 1)
    end
  else mret tt.

(** ** Names of the shader uniforms *)

Definition g_ModelName : string := "model".
Definition g_ColorValueName : string := "objectColor".
Definition g_TextureValueName : string := "objectTexture".
Definition g_UseTextureName : string := "bUseTexture".
Definition g_UseLightingName : string := "bUseLighting".

(** ** Texture registry *)

(** [m_textureIDs[i]] read and written: undefined outside the array. *)
Definition read_texture (i : Z) : M TEXTURE_INFO.t := fun w =>
  e ← at_index (m_textureIDs (this w)) i;
  Some (e, w).

Definition write_texture (i : Z) (e : TEXTURE_INFO.t) : M unit := fun w =>
  ids ← store_index (m_textureIDs (this w)) i e;
  Some (tt, with_this (fun sm =>
    MkSceneManager (m_pShaderManager sm) ids (m_loadedTextures sm)
                   (m_objectMaterials sm)) w).

Definition set_loadedTextures (n : Z) : M unit := fun w =>
  Some (tt, with_this (fun sm =>
    MkSceneManager (m_pShaderManager sm) (m_textureIDs sm) n
                   (m_objectMaterials sm)) w).

(** The three statements that register a loaded texture:
    [m_textureIDs[m_loadedTextures].ID = textureID],
    [m_textureIDs[m_loadedTextures].tag = tag], [m_loadedTextures++].
    The increment cannot overflow: the index was inside the array. *)
Definition register_texture (textureID : GLuint) (tag : string) : M unit :=
  sm ← get_this;
  e ← read_texture (m_loadedTextures sm);
  write_texture (m_loadedTextures sm)
    (TEXTURE_INFO.Make textureID (TEXTURE_INFO.tag e));;
  e ← read_texture (m_loadedTextures sm);
  write_texture (m_loadedTextures sm)
    (TEXTURE_INFO.Make (TEXTURE_INFO.ID e) tag);;
  set_loadedTextures (m_loadedTextures sm + 1).

Definition CreateGLTexture (filename : string) (tag : string) : M bool :=
  emit (Stb (stbi_set_flip_vertically_on_load true));;
  image ← stb_load filename;
  match image with
  | Some img =>
      let width := img_width img in
      let height := img_height img in
      let colorChannels := img_channels img in
      cout [out_str "Successfully loaded image:"; out_str filename;
            out_str ", width:"; out_int width;
            out_str ", height:"; out_int height;
            out_str ", channels:"; out_int colorChannels; out_endl];;
      textureID ← gl_gen_texture;
      gl (glBindTexture GL_TEXTURE_2D textureID);;
      gl (glTexParameteri GL_TEXTURE_2D GL_TEXTURE_WRAP_S GL_REPEAT);;
      gl (glTexParameteri GL_TEXTURE_2D GL_TEXTURE_WRAP_T GL_REPEAT);;
      gl (glTexParameteri GL_TEXTURE_2D GL_TEXTURE_MIN_FILTER GL_LINEAR);;
      gl (glTexParameteri GL_TEXTURE_2D GL_TEXTURE_MAG_FILTER GL_LINEAR);;
      let finish : M bool :=
        gl (glGenerateMipmap GL_TEXTURE_2D);;
        emit (Stb (stbi_image_free img));;
        gl (glBindTexture GL_TEXTURE_2D 0);;
        register_texture textureID tag;;
        mret true in
      if colorChannels =? 3 then
        gl (glTexImage2D GL_TEXTURE_2D 0 GL_RGB8 width height 0 GL_RGB
                         GL_UNSIGNED_BYTE (img_data img));;
        finish
      else if colorChannels =? 4 then
        gl (glTexImage2D GL_TEXTURE_2D 0 GL_RGBA8 width height 0 GL_RGBA
                         GL_UNSIGNED_BYTE (img_data img));;
        finish
      else
        cout [out_str "Not implemented to handle image with ";
              out_int colorChannels; out_str " channels"; out_endl];;
        mret false
  | None =>
      cout [out_str "Could not load image:"; out_str filename; out_endl];;
      mret false
  end.

Definition BindGLTextures : M unit :=
  sm ← get_this;
  for_int (Z.to_nat (m_loadedTextures sm))
    (fun i => sm ← get_this; mret (i <? m_loadedTextures sm))
    (fun i =>
       gl (glActiveTexture (GL_TEXTURE0 + i));;
       e ← read_texture i;
       gl (glBindTexture GL_TEXTURE_2D (TEXTURE_INFO.ID e)))
    0.

(** [glGenTextures(1, &m_textureIDs[i].ID)] writes the new name into the
    registry entry. *)
Definition DestroyGLTextures : M unit :=
  sm ← get_this;
  for_int (Z.to_nat (m_loadedTextures sm))
    (fun i => sm ← get_this; mret (i <? m_loadedTextures sm))
    (fun i =>
       e ← read_texture i;
       name ← gl_gen_texture;
       write_texture i (TEXTURE_INFO.Make name (TEXTURE_INFO.tag e)))
    0.

Definition FindTextureID (tag : string) : M Z := fun w =>
  let sm := this w in
  r ← while (Z.to_nat (m_loadedTextures sm))
        (fun '(textureID, index, bFound) =>
           (index <? m_loadedTextures sm) && negb bFound)
        (fun '(textureID, index, bFound) =>
           e ← at_index (m_textureIDs sm) index;
           if string_compare (TEXTURE_INFO.tag e) tag =? 0
           then Some (int_of_GLuint (TEXTURE_INFO.ID e), index, true)
           else Some (textureID, index + 1, bFound))
        (-1, 0, false);
  let '(textureID, _, _) := r in
  Some (textureID, w).

Definition FindTextureSlot (tag : string) : M Z := fun w =>
  let sm := this w in
  r ← while (Z.to_nat (m_loadedTextures sm))
        (fun '(textureSlot, index, bFound) =>
           (index <? m_loadedTextures sm) && negb bFound)
        (fun '(textureSlot, index, bFound) =>
           e ← at_index (m_textureIDs sm) index;
           if string_compare (TEXTURE_INFO.tag e) tag =? 0
           then Some (index, index, true)
           else Some (textureSlot, index + 1, bFound))
        (-1, 0, false);
  let '(textureSlot, _, _) := r in
  Some (textureSlot, w).

(** ** Material registry *)

(** [material] is passed by reference: the function returns it as it leaves
    it. The test [index < m_objectMaterials.size()] compares as unsigned;
    [index] is never negative. *)
Definition FindMaterial (tag : string) (material : OBJECT_MATERIAL.t)
    : M (bool * OBJECT_MATERIAL.t) := fun w =>
  let sm := this w in
  if Z.of_nat (length (m_objectMaterials sm)) =? 0 then
    Some ((false, material), w)
  else
    r ← while (length (m_objectMaterials sm))
          (fun '(material, index, bFound) =>
             (index <? Z.of_nat (length (m_objectMaterials sm))) && negb bFound)
          (fun '(material, index, bFound) =>
             e ← at_index (m_objectMaterials sm) index;
             if string_compare (OBJECT_MATERIAL.tag e) tag =? 0
             then Some (OBJECT_MATERIAL.Make
                          (OBJECT_MATERIAL.diffuseColor e)
                          (OBJECT_MATERIAL.specularColor e)
                          (OBJECT_MATERIAL.shininess e)
                          (OBJECT_MATERIAL.tag material),
                        index, true)
             else Some (material, index + 1, bFound))
          (material, 0, false);
    let '(material, _, _) := r in
    Some ((true, material), w).

(** ** Transform composer and shader state facade *)

Definition SetTransformations (scaleXYZ : vec3)
    (XrotationDegrees YrotationDegrees ZrotationDegrees : float)
    (positionXYZ : vec3) : M unit :=
  let scale := glm_scale scaleXYZ in
  let rotationX := glm_rotate (glm_radians XrotationDegrees) (Vec3 1.0 0.0 0.0) in
  let rotationY := glm_rotate (glm_radians YrotationDegrees) (Vec3 0.0 1.0 0.0) in
  let rotationZ := glm_rotate (glm_radians ZrotationDegrees) (Vec3 0.0 0.0 1.0) in
  let translation := glm_translate positionXYZ in
  let modelView := (translation * rotationZ * rotationY * rotationX * scale)%mat4 in
  sm ← get_this;
  if m_pShaderManager sm is Some _ then
    shader (setMat4Value g_ModelName modelView)
  else mret tt.

Definition SetShaderColor
    (redColorValue greenColorValue blueColorValue alphaValue : float) : M unit :=
  let currentColor :=
    Vec4 redColorValue greenColorValue blueColorValue alphaValue in
  sm ← get_this;
  if m_pShaderManager sm is Some _ then
    shader (setIntValue g_UseTextureName (Z.b2z false));;
    shader (setVec4Value g_ColorValueName currentColor)
  else mret tt.

Definition SetShaderTexture (textureTag : string) : M unit :=
  sm ← get_this;
  if m_pShaderManager sm is Some _ then
    shader (setIntValue g_UseTextureName (Z.b2z true));;
    textureID ← FindTextureSlot textureTag;
    shader (setSampler2DValue g_TextureValueName textureID)
  else mret tt.

Definition SetTextureUVScale (u v : float) : M unit :=
  sm ← get_this;
  if m_pShaderManager sm is Some _ then
    shader (setVec2Value "UVscale" (Vec2 u v))
  else mret tt.

(** [OBJECT_MATERIAL material;] : the tag is an empty string, the other
    fields hold whatever the memory held. *)
Definition uninitialized_material : M OBJECT_MATERIAL.t := fun w =>
  let '(d, s, sh) := indeterminate (outside w) (trace w) in
  Some (OBJECT_MATERIAL.Make d s sh "", w).

Definition SetShaderMaterial (materialTag : string) : M unit :=
  sm ← get_this;
  if 0 <? Z.of_nat (length (m_objectMaterials sm)) then
    material ← uninitialized_material;
    '(bReturn, material) ← FindMaterial materialTag material;
    if bReturn : bool then
      shader (setVec3Value "material.diffuseColor"
                (OBJECT_MATERIAL.diffuseColor material));;
      shader (setVec3Value "material.specularColor"
                (OBJECT_MATERIAL.specularColor material));;
      shader (setFloatValue "material.shininess"
                (OBJECT_MATERIAL.shininess material))
    else mret tt
  else mret tt.

(** ** Scene preparation *)

Definition LoadSceneTextures : M unit :=
  bReturn ← CreateGLTexture
    "C:/Users/adrea/OneDrive/Pictures/Screenshots/object texture one.jpg"
    "couch";
  bReturn ← CreateGLTexture
    "C:/Users/adrea/OneDrive/Pictures/Screenshots/object texture three.jpg"
    "wall";
  bReturn ← CreateGLTexture
    "C:/Users/adrea/OneDrive/Pictures/Screenshots/object texture two.jpg"
    "floor";
  BindGLTextures.

Definition push_back_material (m : OBJECT_MATERIAL.t) : M unit := fun w =>
  Some (tt, with_this (fun sm =>
    MkSceneManager (m_pShaderManager sm) (m_textureIDs sm) (m_loadedTextures sm)
                   (m_objectMaterials sm ++ [m])) w).

Definition DefineObjectMaterials : M unit :=
  let fabricMaterial :=
    OBJECT_MATERIAL.Make (Vec3 0.5 0.5 0.5) (Vec3 0.4 0.4 0.4) 0.5 "fabric" in
  push_back_material fabricMaterial;;
  let woodMaterial :=
    OBJECT_MATERIAL.Make (Vec3 0.5 0.5 0.5) (Vec3 0.4 0.4 0.4) 0.3 "wood" in
  push_back_material woodMaterial.

(** The three-float overload of [setVec3Value] is recorded as the vector
    it builds. *)
Definition SetupSceneLights : M unit :=
  shader (setBoolValue g_UseLightingName true);;
  shader (setVec3Value "pointLights[0].position" (Vec3 (-15.0) 10.0 (-5.75)));;
  shader (setVec3Value "pointLights[0].ambient" (Vec3 0.05 0.05 0.05));;
  shader (setVec3Value "pointLights[0].diffuse" (Vec3 0.5 0.5 0.5));;
  shader (setVec3Value "pointLights[0].specular" (Vec3 0.2 0.2 0.2));;
  shader (setBoolValue "pointLights[0].bActive" true);;
  shader (setVec3Value "pointLights[1].position" (Vec3 15.0 10.0 (-5.75)));;
  shader (setVec3Value "pointLights[1].ambient" (Vec3 0.05 0.05 0.05));;
  shader (setVec3Value "pointLights[1].diffuse" (Vec3 0.5 0.5 0.5));;
  shader (setVec3Value "pointLights[1].specular" (Vec3 0.2 0.2 0.2));;
  shader (setBoolValue "pointLights[1].bActive" true);;
  shader (setBoolValue "bUseLighting" true).

Definition PrepareScene : M unit :=
  LoadSceneTextures;;
  DefineObjectMaterials;;
  SetupSceneLights;;
  mesh LoadPlaneMesh;;
  mesh LoadBoxMesh;;
  mesh LoadCylinderMesh;;
  mesh LoadSphereMesh.

(** ** The scene script *)

(** The locals [scaleXYZ], [XrotationDegrees], [YrotationDegrees],
    [ZrotationDegrees] and [positionXYZ] are assigned anew before each
    object; every assignment is a [let] that shadows the previous one. *)
Open Scope Q_scope.

Definition RenderScene : M unit :=
  let XrotationDegrees : float := 0.0 in
  let YrotationDegrees : float := 0.0 in
  let ZrotationDegrees : float := 0.0 in

  let scaleXYZ := Vec3 20.0 1.0 10.0 in
  let XrotationDegrees : float := 0.0 in
  let YrotationDegrees : float := 0.0 in
  let ZrotationDegrees : float := 0.0 in
  let positionXYZ := Vec3 0.0 0.0 0.0 in
  SetTransformations scaleXYZ XrotationDegrees YrotationDegrees
                     ZrotationDegrees positionXYZ;;
  SetShaderColor 0.753 0.753 0.753 1;;
  SetShaderTexture "floor";;
  SetShaderMaterial "wood";;
  mesh DrawPlaneMesh;;

  let scaleXYZ := Vec3 20.0 1.0 10.0 in
  let XrotationDegrees : float := 90.0 in
  let YrotationDegrees : float := 0.0 in
  let ZrotationDegrees : float := 0.0 in
  let positionXYZ := Vec3 0.0 9.0 (-10.0) in
  SetTransformations scaleXYZ XrotationDegrees YrotationDegrees
                     ZrotationDegrees positionXYZ;;
  SetShaderColor 0.827 0.827 0.827 1;;
  SetShaderTexture "wall";;
  SetShaderMaterial "wood";;
  mesh DrawPlaneMesh;;

  let scaleXYZ := Vec3 5.0 0.25 20.0 in
  let XrotationDegrees : float := 0.0 in
  let YrotationDegrees : float := 90.0 in
  let ZrotationDegrees : float := 0.0 in
  let positionXYZ := Vec3 0.0 2.0 (-5.0) in
  SetTransformations scaleXYZ XrotationDegrees YrotationDegrees
                     ZrotationDegrees positionXYZ;;
  SetShaderColor 1.000 1.000 1.000 1;;
  mesh DrawBoxMesh;;
  mesh DrawBoxMeshLines;;

  let scaleXYZ := Vec3 0.2 2.0 0.2 in
  let XrotationDegrees : float := 0.0 in
  let YrotationDegrees : float := 90.0 in
  let ZrotationDegrees : float := 0.0 in
  let positionXYZ := Vec3 (-9.0) 0.0 (-7.0) in
  SetTransformations scaleXYZ XrotationDegrees YrotationDegrees
                     ZrotationDegrees positionXYZ;;
  SetShaderColor 1.000 1.000 1.000 1;;
  mesh DrawCylinderMesh;;
  mesh DrawCylinderMeshLines;;

  let scaleXYZ := Vec3 0.2 2.0 0.2 in
  let XrotationDegrees : float := 0.0 in
  let YrotationDegrees : float := 90.0 in
  let ZrotationDegrees : float := 0.0 in
  let positionXYZ := Vec3 (-9.0) 0.0 (-3.0) in
  SetTransformations scaleXYZ XrotationDegrees YrotationDegrees
                     ZrotationDegrees positionXYZ;;
  SetShaderColor 1.000 1.000 1.000 1;;
  mesh DrawCylinderMesh;;
  mesh DrawCylinderMeshLines;;

  let scaleXYZ := Vec3 0.2 2.0 0.2 in
  let XrotationDegrees : float := 0.0 in
  let YrotationDegrees : float := 90.0 in
  let ZrotationDegrees : float := 0.0 in
  let positionXYZ := Vec3 9.0 0.0 (-7.0) in
  SetTransformations scaleXYZ XrotationDegrees YrotationDegrees
                     ZrotationDegrees positionXYZ;;
  SetShaderColor 1.000 1.000 1.000 1;;
  mesh DrawCylinderMesh;;
  mesh DrawCylinderMeshLines;;

  let scaleXYZ := Vec3 0.2 2.0 0.2 in
  let XrotationDegrees : float := 0.0 in
  let YrotationDegrees : float := 90.0 in
  let ZrotationDegrees : float := 0.0 in
  let positionXYZ := Vec3 9.0 0.0 (-3.0) in
  SetTransformations scaleXYZ XrotationDegrees YrotationDegrees
                     ZrotationDegrees positionXYZ;;
  SetShaderColor 1.000 1.000 1.000 1;;
  mesh DrawCylinderMesh;;
  mesh DrawCylinderMeshLines;;

  let scaleXYZ := Vec3 6.5 0.25 5.0 in
  let XrotationDegrees : float := 90.0 in
  let YrotationDegrees : float := 0.0 in
  let ZrotationDegrees : float := 0.0 in
  let positionXYZ := Vec3 (-6.25) 4.5 (-7.0) in
  SetTransformations scaleXYZ XrotationDegrees YrotationDegrees
                     ZrotationDegrees positionXYZ;;
  SetShaderColor 0.663 0.663 0.663 1;;
  SetShaderTexture "couch";;
  SetShaderMaterial "fabric";;
  mesh DrawBoxMesh;;
  mesh DrawBoxMeshLines;;

  let scaleXYZ := Vec3 6.5 0.25 5.0 in
  let XrotationDegrees : float := 90.0 in
  let YrotationDegrees : float := 0.0 in
  let ZrotationDegrees : float := 0.0 in
  let positionXYZ := Vec3 0.25 4.5 (-7.0) in
  SetTransformations scaleXYZ XrotationDegrees YrotationDegrees
                     ZrotationDegrees positionXYZ;;
  SetShaderColor 0.663 0.663 0.663 1;;
  SetShaderTexture "couch";;
  SetShaderMaterial "fabric";;
  mesh DrawBoxMesh;;
  mesh DrawBoxMeshLines;;

  let scaleXYZ := Vec3 6.0 0.25 5.0 in
  let XrotationDegrees : float := 90.0 in
  let YrotationDegrees : float := 0.0 in
  let ZrotationDegrees : float := 0.0 in
  let positionXYZ := Vec3 6.5 4.5 (-7.0) in
  SetTransformations scaleXYZ XrotationDegrees YrotationDegrees
                     ZrotationDegrees positionXYZ;;
  SetShaderColor 0.663 0.663 0.663 1;;
  SetShaderTexture "couch";;
  SetShaderMaterial "fabric";;
  mesh DrawBoxMesh;;
  mesh DrawBoxMeshLines;;

  let scaleXYZ := Vec3 6.5 0.5 4.5 in
  let XrotationDegrees : float := 0.0 in
  let YrotationDegrees : float := 0.0 in
  let ZrotationDegrees : float := 0.0 in
  let positionXYZ := Vec3 (-6.25) 2.25 (-5.0) in
  SetTransformations scaleXYZ XrotationDegrees YrotationDegrees
                     ZrotationDegrees positionXYZ;;
  SetShaderColor 0.663 0.663 0.663 1;;
  SetShaderTexture "couch";;
  SetShaderMaterial "fabric";;
  mesh DrawBoxMesh;;
  mesh DrawBoxMeshLines;;

  let scaleXYZ := Vec3 6.5 0.5 4.5 in
  let XrotationDegrees : float := 0.0 in
  let YrotationDegrees : float := 0.0 in
  let ZrotationDegrees : float := 0.0 in
  let positionXYZ := Vec3 0.25 2.25 (-5.0) in
  SetTransformations scaleXYZ XrotationDegrees YrotationDegrees
                     ZrotationDegrees positionXYZ;;
  SetShaderColor 0.663 0.663 0.663 1;;
  SetShaderTexture "couch";;
  SetShaderMaterial "fabric";;
  mesh DrawBoxMesh;;
  mesh DrawBoxMeshLines;;

  let scaleXYZ := Vec3 6.5 0.5 4.5 in
  let XrotationDegrees : float := 0.0 in
  let YrotationDegrees : float := 0.0 in
  let ZrotationDegrees : float := 0.0 in
  let positionXYZ := Vec3 6.25 2.25 (-5.0) in
  SetTransformations scaleXYZ XrotationDegrees YrotationDegrees
                     ZrotationDegrees positionXYZ;;
  SetShaderColor 0.663 0.663 0.663 1;;
  SetShaderTexture "couch";;
  SetShaderMaterial "fabric";;
  mesh DrawBoxMesh;;
  mesh DrawBoxMeshLines;;

  let scaleXYZ := Vec3 6.5 0.5 4.5 in
  let XrotationDegrees : float := 0.0 in
  let YrotationDegrees : float := 0.0 in
  let ZrotationDegrees : float := 0.0 in
  let positionXYZ := Vec3 (-15.0) 3.25 (-5.0) in
  SetTransformations scaleXYZ XrotationDegrees YrotationDegrees
                     ZrotationDegrees positionXYZ;;
  SetShaderColor 0.545 0.271 0.075 1;;
  SetShaderTexture "floor";;
  SetShaderMaterial "wood";;
  mesh DrawBoxMesh;;
  mesh DrawBoxMeshLines;;

  let scaleXYZ := Vec3 0.5 3.0 0.5 in
  let XrotationDegrees : float := 0.0 in
  let YrotationDegrees : float := 0.0 in
  let ZrotationDegrees : float := 0.0 in
  let positionXYZ := Vec3 (-18.0) 1.5 (-7.0) in
  SetTransformations scaleXYZ XrotationDegrees YrotationDegrees
                     ZrotationDegrees positionXYZ;;
  SetShaderColor 1.000 1.000 1.000 1;;
  mesh DrawBoxMesh;;
  mesh DrawBoxMeshLines;;

  let scaleXYZ := Vec3 0.5 3.0 0.5 in
  let XrotationDegrees : float := 0.0 in
  let YrotationDegrees : float := 0.0 in
  let ZrotationDegrees : float := 0.0 in
  let positionXYZ := Vec3 (-12.0) 1.5 (-7.0) in
  SetTransformations scaleXYZ XrotationDegrees YrotationDegrees
                     ZrotationDegrees positionXYZ;;
  SetShaderColor 1.000 1.000 1.000 1;;
  mesh DrawBoxMesh;;
  mesh DrawBoxMeshLines;;

  let scaleXYZ := Vec3 0.5 3.0 0.5 in
  let XrotationDegrees : float := 0.0 in
  let YrotationDegrees : float := 0.0 in
  let ZrotationDegrees : float := 0.0 in
  let positionXYZ := Vec3 (-18.0) 1.5 (-7.0) in
  SetTransformations scaleXYZ XrotationDegrees YrotationDegrees
                     ZrotationDegrees positionXYZ;;
  SetShaderColor 1.000 1.000 1.000 1;;
  mesh DrawBoxMesh;;
  mesh DrawBoxMeshLines;;

  let scaleXYZ := Vec3 5.5 0.5 0.5 in
  let XrotationDegrees : float := 0.0 in
  let YrotationDegrees : float := 0.0 in
  let ZrotationDegrees : float := 0.0 in
  let positionXYZ := Vec3 (-15.0) 0.25 (-7.0) in
  SetTransformations scaleXYZ XrotationDegrees YrotationDegrees
                     ZrotationDegrees positionXYZ;;
  SetShaderColor 1.000 1.000 1.000 1;;
  mesh DrawBoxMesh;;
  mesh DrawBoxMeshLines;;

  let scaleXYZ := Vec3 0.5 0.5 4.5 in
  let XrotationDegrees : float := 0.0 in
  let YrotationDegrees : float := 0.0 in
  let ZrotationDegrees : float := 0.0 in
  let positionXYZ := Vec3 (-18.0) 0.25 (-5.0) in
  SetTransformations scaleXYZ XrotationDegrees YrotationDegrees
                     ZrotationDegrees positionXYZ;;
  SetShaderColor 1.000 1.000 1.000 1;;
  mesh DrawBoxMesh;;
  mesh DrawBoxMeshLines;;

  let scaleXYZ := Vec3 0.5 0.5 4.5 in
  let XrotationDegrees : float := 0.0 in
  let YrotationDegrees : float := 0.0 in
  let ZrotationDegrees : float := 0.0 in
  let positionXYZ := Vec3 (-12.0) 0.25 (-5.0) in
  SetTransformations scaleXYZ XrotationDegrees YrotationDegrees
                     ZrotationDegrees positionXYZ;;
  SetShaderColor 1.000 1.000 1.000 1;;
  mesh DrawBoxMesh;;
  mesh DrawBoxMeshLines;;

  let scaleXYZ := Vec3 5.5 0.5 0.5 in
  let XrotationDegrees : float := 0.0 in
  let YrotationDegrees : float := 0.0 in
  let ZrotationDegrees : float := 0.0 in
  let positionXYZ := Vec3 (-15.0) 0.25 (-3.0) in
  SetTransformations scaleXYZ XrotationDegrees YrotationDegrees
                     ZrotationDegrees positionXYZ;;
  SetShaderColor 1.000 1.000 1.000 1;;
  mesh DrawBoxMesh;;
  mesh DrawBoxMeshLines;;

  let scaleXYZ := Vec3 1.5 0.08 1.5 in
  let XrotationDegrees : float := 0.0 in
  let YrotationDegrees : float := 0.0 in
  let ZrotationDegrees : float := 0.0 in
  let positionXYZ := Vec3 (-15.0) 3.55 (-5.75) in
  SetTransformations scaleXYZ XrotationDegrees YrotationDegrees
                     ZrotationDegrees positionXYZ;;
  SetShaderColor 0.392 0.584 0.929 1;;
  mesh DrawBoxMesh;;
  mesh DrawBoxMeshLines;;

  let scaleXYZ := Vec3 0.15 3.0 0.15 in
  let XrotationDegrees : float := 0.0 in
  let YrotationDegrees : float := 0.0 in
  let ZrotationDegrees : float := 0.0 in
  let positionXYZ := Vec3 (-15.0) 5.0 (-5.75) in
  SetTransformations scaleXYZ XrotationDegrees YrotationDegrees
                     ZrotationDegrees positionXYZ;;
  SetShaderColor 0.392 0.584 0.929 1;;
  mesh DrawBoxMesh;;
  mesh DrawBoxMeshLines;;

  let scaleXYZ := Vec3 0.75 (-1.5) 0.75 in
  let XrotationDegrees : float := 0.0 in
  let YrotationDegrees : float := 0.0 in
  let ZrotationDegrees : float := 0.0 in
  let positionXYZ := Vec3 (-15.0) 7.6 (-5.75) in
  SetTransformations scaleXYZ XrotationDegrees YrotationDegrees
                     ZrotationDegrees positionXYZ;;
  SetShaderColor 0.392 0.584 0.929 1;;
  mesh DrawHalfSphereMesh;;
  mesh DrawHalfSphereMeshLines;;

  let scaleXYZ := Vec3 0.6 0.5 0.6 in
  let XrotationDegrees : float := 0.0 in
  let YrotationDegrees : float := 0.0 in
  let ZrotationDegrees : float := 0.0 in
  let positionXYZ := Vec3 (-15.0) 7.4 (-5.75) in
  SetTransformations scaleXYZ XrotationDegrees YrotationDegrees
                     ZrotationDegrees positionXYZ;;
  SetShaderColor 1.000 1.000 0.878 1;;
  mesh DrawHalfSphereMesh;;
  mesh DrawHalfSphereMeshLines;;

  let scaleXYZ := Vec3 0.25 0.01 0.05 in
  let XrotationDegrees : float := 0.0 in
  let YrotationDegrees : float := 0.0 in
  let ZrotationDegrees : float := 0.0 in
  let positionXYZ := Vec3 (-15.0) 3.6 (-5.25) in
  SetTransformations scaleXYZ XrotationDegrees YrotationDegrees
                     ZrotationDegrees positionXYZ;;
  SetShaderColor 0.753 0.753 0.753 1;;
  mesh DrawBoxMesh;;
  mesh DrawBoxMeshLines;;

  let scaleXYZ := Vec3 1.2 (-0.8) 1.2 in
  let XrotationDegrees : float := 0.0 in
  let YrotationDegrees : float := 0.0 in
  let ZrotationDegrees : float := 0.0 in
  let positionXYZ := Vec3 (-17.0) 4.3 (-3.8) in
  SetTransformations scaleXYZ XrotationDegrees YrotationDegrees
                     ZrotationDegrees positionXYZ;;
  SetShaderColor 0.753 0.753 0.753 1;;
  mesh DrawHalfSphereMesh;;
  mesh DrawHalfSphereMeshLines;;

  let scaleXYZ := Vec3 6.5 0.5 4.5 in
  let XrotationDegrees : float := 0.0 in
  let YrotationDegrees : float := 0.0 in
  let ZrotationDegrees : float := 0.0 in
  let positionXYZ := Vec3 15.0 3.25 (-5.0) in
  SetTransformations scaleXYZ XrotationDegrees YrotationDegrees
                     ZrotationDegrees positionXYZ;;
  SetShaderColor 0.545 0.271 0.075 1;;
  SetShaderTexture "floor";;
  SetShaderMaterial "wood";;
  mesh DrawBoxMesh;;
  mesh DrawBoxMeshLines;;

  let scaleXYZ := Vec3 0.5 3.0 0.5 in
  let XrotationDegrees : float := 0.0 in
  let YrotationDegrees : float := 0.0 in
  let ZrotationDegrees : float := 0.0 in
  let positionXYZ := Vec3 18.0 1.5 (-7.0) in
  SetTransformations scaleXYZ XrotationDegrees YrotationDegrees
                     ZrotationDegrees positionXYZ;;
  SetShaderColor 1.000 1.000 1.000 1;;
  mesh DrawBoxMesh;;
  mesh DrawBoxMeshLines;;

  let scaleXYZ := Vec3 0.5 3.0 0.5 in
  let XrotationDegrees : float := 0.0 in
  let YrotationDegrees : float := 0.0 in
  let ZrotationDegrees : float := 0.0 in
  let positionXYZ := Vec3 12.0 1.5 (-7.0) in
  SetTransformations scaleXYZ XrotationDegrees YrotationDegrees
                     ZrotationDegrees positionXYZ;;
  SetShaderColor 1.000 1.000 1.000 1;;
  mesh DrawBoxMesh;;
  mesh DrawBoxMeshLines;;

  let scaleXYZ := Vec3 0.5 3.0 0.5 in
  let XrotationDegrees : float := 0.0 in
  let YrotationDegrees : float := 0.0 in
  let ZrotationDegrees : float := 0.0 in
  let positionXYZ := Vec3 18.0 1.5 (-7.0) in
  SetTransformations scaleXYZ XrotationDegrees YrotationDegrees
                     ZrotationDegrees positionXYZ;;
  SetShaderColor 1.000 1.000 1.000 1;;
  mesh DrawBoxMesh;;
  mesh DrawBoxMeshLines;;

  let scaleXYZ := Vec3 5.5 0.5 0.5 in
  let XrotationDegrees : float := 0.0 in
  let YrotationDegrees : float := 0.0 in
  let ZrotationDegrees : float := 0.0 in
  let positionXYZ := Vec3 15.0 0.25 (-7.0) in
  SetTransformations scaleXYZ XrotationDegrees YrotationDegrees
                     ZrotationDegrees positionXYZ;;
  SetShaderColor 1.000 1.000 1.000 1;;
  mesh DrawBoxMesh;;
  mesh DrawBoxMeshLines;;

  let scaleXYZ := Vec3 0.5 0.5 4.5 in
  let XrotationDegrees : float := 0.0 in
  let YrotationDegrees : float := 0.0 in
  let ZrotationDegrees : float := 0.0 in
  let positionXYZ := Vec3 18.0 0.25 (-5.0) in
  SetTransformations scaleXYZ XrotationDegrees YrotationDegrees
                     ZrotationDegrees positionXYZ;;
  SetShaderColor 1.000 1.000 1.000 1;;
  mesh DrawBoxMesh;;
  mesh DrawBoxMeshLines;;

  let scaleXYZ := Vec3 0.5 0.5 4.5 in
  let XrotationDegrees : float := 0.0 in
  let YrotationDegrees : float := 0.0 in
  let ZrotationDegrees : float := 0.0 in
  let positionXYZ := Vec3 12.0 0.25 (-5.0) in
  SetTransformations scaleXYZ XrotationDegrees YrotationDegrees
                     ZrotationDegrees positionXYZ;;
  SetShaderColor 1.000 1.000 1.000 1;;
  mesh DrawBoxMesh;;
  mesh DrawBoxMeshLines;;

  let scaleXYZ := Vec3 5.5 0.5 0.5 in
  let XrotationDegrees : float := 0.0 in
  let YrotationDegrees : float := 0.0 in
  let ZrotationDegrees : float := 0.0 in
  let positionXYZ := Vec3 15.0 0.25 (-3.0) in
  SetTransformations scaleXYZ XrotationDegrees YrotationDegrees
                     ZrotationDegrees positionXYZ;;
  SetShaderColor 1.00 1.000 1.000 1;;
  mesh DrawBoxMesh;;
  mesh DrawBoxMeshLines;;

  let scaleXYZ := Vec3 1.5 0.08 1.5 in
  let XrotationDegrees : float := 0.0 in
  let YrotationDegrees : float := 0.0 in
  let ZrotationDegrees : float := 0.0 in
  let positionXYZ := Vec3 15.0 3.55 (-5.75) in
  SetTransformations scaleXYZ XrotationDegrees YrotationDegrees
                     ZrotationDegrees positionXYZ;;
  SetShaderColor 0.392 0.584 0.929 1;;
  mesh DrawBoxMesh;;
  mesh DrawBoxMeshLines;;

  let scaleXYZ := Vec3 0.15 3.0 0.15 in
  let XrotationDegrees : float := 0.0 in
  let YrotationDegrees : float := 0.0 in
  let ZrotationDegrees : float := 0.0 in
  let positionXYZ := Vec3 15.0 5.0 (-5.75) in
  SetTransformations scaleXYZ XrotationDegrees YrotationDegrees
                     ZrotationDegrees positionXYZ;;
  SetShaderColor 0.392 0.584 0.929 1;;
  mesh DrawBoxMesh;;
  mesh DrawBoxMeshLines;;

  let scaleXYZ := Vec3 0.75 (-1.5) 0.75 in
  let XrotationDegrees : float := 0.0 in
  let YrotationDegrees : float := 0.0 in
  let ZrotationDegrees : float := 0.0 in
  let positionXYZ := Vec3 15.0 7.6 (-5.75) in
  SetTransformations scaleXYZ XrotationDegrees YrotationDegrees
                     ZrotationDegrees positionXYZ;;
  SetShaderColor 0.392 0.584 0.929 1;;
  mesh DrawHalfSphereMesh;;
  mesh DrawHalfSphereMeshLines;;

  let scaleXYZ := Vec3 0.6 0.5 0.6 in
  let XrotationDegrees : float := 0.0 in
  let YrotationDegrees : float := 0.0 in
  let ZrotationDegrees : float := 0.0 in
  let positionXYZ := Vec3 15.0 7.4 (-5.75) in
  SetTransformations scaleXYZ XrotationDegrees YrotationDegrees
                     ZrotationDegrees positionXYZ;;
  SetShaderColor 1.000 1.000 0.878 1;;
  mesh DrawHalfSphereMesh;;
  mesh DrawHalfSphereMeshLines;;

  let scaleXYZ := Vec3 0.25 0.01 0.05 in
  let XrotationDegrees : float := 0.0 in
  let YrotationDegrees : float := 0.0 in
  let ZrotationDegrees : float := 0.0 in
  let positionXYZ := Vec3 15.0 3.6 (-5.25) in
  SetTransformations scaleXYZ XrotationDegrees YrotationDegrees
                     ZrotationDegrees positionXYZ;;
  SetShaderColor 0.753 0.753 0.753 1;;
  mesh DrawBoxMesh;;
  mesh DrawBoxMeshLines.

Close Scope Q_scope.

(** ** What the claims speak about *)

(** The registry proper: the entries in use, in registration order. Entry
    [i] of this list is the one at slot [i]. *)
Definition registered (sm : SceneManager) : list TEXTURE_INFO.t :=
  take (Z.to_nat (m_loadedTextures sm)) (m_textureIDs sm).

(** The counter stays inside the array of [MAX_TEXTURES] entries. *)
Definition wf_textures (sm : SceneManager) : Prop :=
  Z.of_nat (length (m_textureIDs sm)) = MAX_TEXTURES /\
  0 <= m_loadedTextures sm <= MAX_TEXTURES.

(** First entry carrying a tag, with its position. *)
Definition first_texture (tag : string) (sm : SceneManager)
    : option (nat * TEXTURE_INFO.t) :=
  list_find (fun e => TEXTURE_INFO.tag e = tag) (registered sm).

Definition first_material (tag : string) (sm : SceneManager)
    : option (nat * OBJECT_MATERIAL.t) :=
  list_find (fun e => OBJECT_MATERIAL.tag e = tag) (m_objectMaterials sm).

(** A world after some more calls to the collaborators, the object itself
    untouched. *)
Definition after (w : World) (evs : list event) : World :=
  MkWorld (this w) (outside w) (generated w) (trace w ++ evs).

(** The shape the three lookup loops share: run over the first [n] entries
    of [l] until one [matches]; [found] computes the result from it. *)
Definition scan_test {R} (n : nat) : R * Z * bool -> bool :=
  fun '(r, index, bFound) => (index <? Z.of_nat n) && negb bFound.

Definition scan_body {A R} (l : list A) (matches : A -> bool)
    (found : R -> A -> Z -> R) : R * Z * bool -> option (R * Z * bool) :=
  fun '(r, index, bFound) =>
    e ← at_index l index;
    if matches e then Some (found r e index, index, true)
    else Some (r, index + 1, bFound).

(** Whether [CreateGLTexture] can register a file: it decodes, to three or
    four channels. *)
Definition loadable (o : Outside) (filename : string) : bool :=
  match decode o filename with
  | Some img => (img_channels img =? 3) || (img_channels img =? 4)
  | None => false
  end.

(** A run of [CreateGLTexture] calls, as [LoadSceneTextures] makes them;
    each argument is a file name and a tag. *)
Fixpoint load_all (loads : list (string * string)) : M (list bool) :=
  match loads with
  | [] => mret []
  | (filename, tag) :: rest =>
      bReturn ← CreateGLTexture filename tag;
      results ← load_all rest;
      mret (bReturn :: results)
  end.

(** The calls [BindGLTextures] is to make for the entry at slot [i], and
    for a run of entries that starts at slot [i]. *)
Definition bind_calls (i : nat) (e : TEXTURE_INFO.t) : list event :=
  [GL (glActiveTexture (GL_TEXTURE0 + Z.of_nat i));
   GL (glBindTexture GL_TEXTURE_2D (TEXTURE_INFO.ID e))].

Fixpoint bind_calls_from (i : nat) (l : list TEXTURE_INFO.t) : list event :=
  match l with
  | [] => []
  | e :: l' => bind_calls i e ++ bind_calls_from (S i) l'
  end.

(** Texture names in use after a sequence of calls: [glGenTextures] hands
    one out, [glDeleteTextures] releases it. *)
Definition gl_step (live : list GLuint) (e : event) : list GLuint :=
  match e with
  | GL (glGenTextures _ name) => name :: live
  | GL (glDeleteTextures _ name) => filter (fun x => x ≠ name) live
  | _ => live
  end.

Definition live_textures (t : list event) : list GLuint :=
  foldl gl_step [] t.

(** The calls that draw a mesh. *)
Definition is_draw (e : event) : bool :=
  match e with
  | Mesh (DrawPlaneMesh | DrawBoxMesh | DrawBoxMeshLines | DrawCylinderMesh
         | DrawCylinderMeshLines | DrawHalfSphereMesh | DrawHalfSphereMeshLines)
      => true
  | _ => false
  end.

(** ** Sample worlds *)

Definition rgb_image : stb_image :=
  StbImage 2 2 3 [0; 0; 0; 0; 0; 0; 0; 0; 0; 0; 0; 0].

Definition gray_image : stb_image := StbImage 1 1 1 [0].

(** Files ["gray.png"] (one channel) and ["missing.png"] (no such file);
    every other name decodes to an RGB image. The driver numbers its
    textures from 1. *)
Definition sample_outside : Outside :=
  MkOutside
    (fun f => if String.eqb f "gray.png" then Some gray_image
              else if String.eqb f "missing.png" then None
              else Some rgb_image)
    (fun k => Z.of_nat k + 1)
    (fun _ => (Vec3 9 9 9, Vec3 8 8 8, 7%Q)).

Definition blank_entry : TEXTURE_INFO.t := TEXTURE_INFO.Make 0 "".

Definition empty_manager (p : option positive) : SceneManager :=
  MkSceneManager p (replicate 16 blank_entry) 0 [].

Definition empty_world (p : option positive) : World :=
  MkWorld (empty_manager p) sample_outside 0 [].

(** The world [PrepareScene] leaves behind, less its trace. *)
Definition prepared_manager (p : option positive) : SceneManager :=
  MkSceneManager p
    ([TEXTURE_INFO.Make 1 "couch"; TEXTURE_INFO.Make 2 "wall";
      TEXTURE_INFO.Make 3 "floor"] ++ replicate 13 blank_entry)
    3
    [OBJECT_MATERIAL.Make (Vec3 0.5 0.5 0.5) (Vec3 0.4 0.4 0.4) 0.5 "fabric";
     OBJECT_MATERIAL.Make (Vec3 0.5 0.5 0.5) (Vec3 0.4 0.4 0.4) 0.3 "wood"].

Definition prepared_world (p : option positive) : World :=
  MkWorld (prepared_manager p) sample_outside 3
    [GL (glGenTextures 1 1); GL (glGenTextures 1 2); GL (glGenTextures 1 3)].

(** ** What a computation issues *)

(** On every world whose object is [sm], [c] returns, leaves the object as
    it is, and issues exactly the calls [evs]. *)
Definition emits (sm : SceneManager) (c : M unit) (evs : list event) : Prop :=
  forall w, this w = sm -> c w = Some (tt, after w evs).

(** The model matrix of the transform composer, in the order of the
    specification. *)
Definition model_matrix (scaleXYZ : vec3) (Xdeg Ydeg Zdeg : float)
    (positionXYZ : vec3) : mat4 :=
  (glm_translate positionXYZ
   * glm_rotate (glm_radians Zdeg) (Vec3 0.0 0.0 1.0)
   * glm_rotate (glm_radians Ydeg) (Vec3 0.0 1.0 0.0)
   * glm_rotate (glm_radians Xdeg) (Vec3 1.0 0.0 0.0)
   * glm_scale scaleXYZ)%mat4.

(** The slot a tag resolves to: that of its first entry, or the sentinel. *)
Definition slot_of (tag : string) (sm : SceneManager) : Z :=
  match first_texture tag sm with
  | Some (i, _) => Z.of_nat i
  | None => -1
  end.

(** The uniforms of the material found under [tag]. *)
Definition material_calls (e : OBJECT_MATERIAL.t) : list event :=
  [Shader (setVec3Value "material.diffuseColor" (OBJECT_MATERIAL.diffuseColor e));
   Shader (setVec3Value "material.specularColor" (OBJECT_MATERIAL.specularColor e));
   Shader (setFloatValue "material.shininess" (OBJECT_MATERIAL.shininess e))].

(** What [SetShaderMaterial] pushes for a tag the registry resolves. *)
Definition resolved_material_calls (tag : string) (sm : SceneManager)
    : list event :=
  match m_objectMaterials sm with
  | [] => []
  | _ :: _ =>
      match first_material tag sm with
      | Some (_, e) => material_calls e
      | None => []
      end
  end.

(** The material registry as [RenderScene] needs it: nothing defined at
    all, or a shader manager to push to and both materials of the scene. *)
Definition materials_ready (sm : SceneManager) : Prop :=
  m_objectMaterials sm = [] \/
  (is_Some (m_pShaderManager sm) /\
   is_Some (first_material "wood" sm) /\
   is_Some (first_material "fabric" sm)).

(** A material as a caller of [FindMaterial] may hand it in. *)
Definition default_material : OBJECT_MATERIAL.t :=
  OBJECT_MATERIAL.Make (Vec3 1 1 1) (Vec3 1 1 1) 1 "default".

(** ** More of what the calls mean *)

(** The texture last bound to [target] by a sequence of calls, on the
    texture unit then active. *)
Definition bind_step (target : Z) (b : option GLuint) (e : event)
    : option GLuint :=
  match e with
  | GL (glBindTexture t texture) => if t =? target then Some texture else b
  | _ => b
  end.

Definition last_bound (target : Z) (t : list event) : option GLuint :=
  foldl (bind_step target) None t.

(** The images handed back to [stbi_image_free]. *)
Definition freed_images (t : list event) : list stb_image :=
  omap (fun e => if e is Stb (stbi_image_free img) then Some img else None) t.

(** The calls made between two worlds. *)
Definition calls_since (w w' : World) : list event :=
  drop (length (trace w)) (trace w').

(** A registry with all sixteen slots taken. *)
Definition full_manager : SceneManager :=
  MkSceneManager None (replicate 16 (TEXTURE_INFO.Make 7 "tile")) 16 [].

Definition full_world : World := MkWorld full_manager sample_outside 16 [].

(** A registry whose one texture has the largest name a [GLuint] holds. *)
Definition wrapped_manager : SceneManager :=
  MkSceneManager None
    (TEXTURE_INFO.Make 4294967295 "sky" :: replicate 15 blank_entry) 1 [].

Definition wrapped_world : World := MkWorld wrapped_manager sample_outside 1 [].

(** The draw calls of the scene script, read off a run on an object with no
    shader manager, no texture and no material, where nothing else is
    issued. *)
Definition scene_draws : list event :=
  match RenderScene (empty_world None) with
  | Some (_, w) => trace w
  | None => []
  end.

(** The three loads of [LoadSceneTextures], file name and tag. *)
Definition scene_textures : list (string * string) :=
  [("C:/Users/adrea/OneDrive/Pictures/Screenshots/object texture one.jpg",
    "couch");
   ("C:/Users/adrea/OneDrive/Pictures/Screenshots/object texture three.jpg",
    "wall");
   ("C:/Users/adrea/OneDrive/Pictures/Screenshots/object texture two.jpg",
    "floor")].

(** * Proofs *)

(** ** Strings, conversions, array access *)

Lemma string_compare_eq (a b : string) :
  (string_compare a b =? 0) = true <-> a = b.
Proof.
  unfold string_compare. split.
  - destruct (String.compare a b) eqn:E; try discriminate.
    intros _. by apply String.compare_eq_iff.
  - intros ->. pose proof (String.compare_antisym b b) as E.
    destruct (String.compare b b); done.
Qed.

Lemma string_compare_ne (a b : string) :
  (string_compare a b =? 0) = false <-> a ≠ b.
Proof.
  rewrite <- string_compare_eq. destruct (string_compare a b =? 0); naive_solver.
Qed.

Lemma at_index_nat {A} (l : list A) (k : nat) :
  at_index l (Z.of_nat k) = l !! k.
Proof.
  unfold at_index. rewrite Nat2Z.id.
  destruct (Z.leb_spec 0 (Z.of_nat k)); [done | lia].
Qed.

(** ** The first-match loop *)

Section Scan.
Context {A R : Type}.
Variable l : list A.
Variable n : nat.
Variable P : A -> Prop.
Context `{!forall e, Decision (P e)}.
Variable matches : A -> bool.
Variable found : R -> A -> Z -> R.
Hypothesis matches_P : forall e, matches e = true <-> P e.
Hypothesis bound : (n <= length l)%nat.

(** From index [k] on, the loop stops at the first entry satisfying [P],
    or at [n] when there is none; [n - k] iterations are enough. *)
Lemma while_scan (fuel k : nat) (r : R) :
  (k <= n)%nat -> (n - k <= fuel)%nat ->
  while fuel (scan_test n) (scan_body l matches found) (r, Z.of_nat k, false) =
  Some match list_find P (drop k (take n l)) with
       | Some (j, e) => (found r e (Z.of_nat (k + j)), Z.of_nat (k + j), true)
       | None => (r, Z.of_nat n, false)
       end.
Proof.
  revert k. induction fuel as [|fuel IH]; intros k Hk Hfuel.
  - assert (k = n) as -> by lia.
    rewrite drop_ge by (rewrite length_take; lia). simpl.
    rewrite Z.ltb_irrefl. done.
  - destruct (decide (k = n)) as [->|Hne].
    + rewrite drop_ge by (rewrite length_take; lia). simpl.
      rewrite Z.ltb_irrefl. done.
    + assert (k < n)%nat as Hlt by lia.
      destruct (lookup_lt_is_Some_2 l k) as [e He]; [lia|].
      assert (take n l !! k = Some e) as Hreg
        by (rewrite lookup_take_lt; done).
      rewrite (drop_S _ _ _ Hreg).
      cbn [while scan_test].
      assert ((Z.of_nat k <? Z.of_nat n) = true) as -> by (apply Z.ltb_lt; lia).
      cbn [andb negb scan_body]. rewrite at_index_nat, He. cbn [mbind option_bind].
      cbn [list_find]. destruct (decide (P e)) as [HP|HP].
      * apply matches_P in HP. rewrite HP.
        replace (k + 0)%nat with k by lia.
        destruct fuel; cbn [while scan_test];
          rewrite andb_false_r; done.
      * destruct (matches e) eqn:Em; [by apply matches_P in Em|].
        replace (Z.of_nat k + 1) with (Z.of_nat (S k)) by lia.
        rewrite IH by lia.
        destruct (list_find P (drop (S k) (take n l))) as [[j e']|];
          cbn [fmap option_fmap option_map prod_map fst snd id]; [|done].
        do 3 f_equal; try f_equal; lia.
Qed.
End Scan.

(** ** Texture lookup *)

Lemma wf_counter (sm : SceneManager) :
  wf_textures sm ->
  exists n : nat, m_loadedTextures sm = Z.of_nat n /\
                  (n <= length (m_textureIDs sm))%nat.
Proof.
  intros [Hlen [H0 H16]]. exists (Z.to_nat (m_loadedTextures sm)). lia.
Qed.

Lemma FindTextureSlot_first (tag : string) (w : World) :
  wf_textures (this w) ->
  FindTextureSlot tag w =
  Some (match first_texture tag (this w) with
        | Some (i, _) => Z.of_nat i
        | None => -1
        end, w).
Proof.
  intros Hwf. destruct (wf_counter _ Hwf) as (n & Hn & Hle).
  unfold FindTextureSlot, first_texture, registered. cbv zeta.
  rewrite Hn, Nat2Z.id.
  pose proof (while_scan (m_textureIDs (this w)) n
                (fun e => TEXTURE_INFO.tag e = tag)
                (fun e => string_compare (TEXTURE_INFO.tag e) tag =? 0)
                (fun (_ : Z) (_ : TEXTURE_INFO.t) (index : Z) => index)
                (fun e => string_compare_eq _ _) Hle n 0 (-1)) as Hscan.
  unfold scan_test, scan_body in Hscan. cbv beta in Hscan.
  change (Z.of_nat 0) with 0 in Hscan.
  rewrite Hscan by lia. rewrite drop_0. cbn [mbind option_bind].
  by destruct (list_find _ _) as [[j e]|].
Qed.

Lemma FindTextureID_first (tag : string) (w : World) :
  wf_textures (this w) ->
  FindTextureID tag w =
  Some (match first_texture tag (this w) with
        | Some (_, e) => int_of_GLuint (TEXTURE_INFO.ID e)
        | None => -1
        end, w).
Proof.
  intros Hwf. destruct (wf_counter _ Hwf) as (n & Hn & Hle).
  unfold FindTextureID, first_texture, registered. cbv zeta.
  rewrite Hn, Nat2Z.id.
  pose proof (while_scan (m_textureIDs (this w)) n
                (fun e => TEXTURE_INFO.tag e = tag)
                (fun e => string_compare (TEXTURE_INFO.tag e) tag =? 0)
                (fun (_ : Z) (e : TEXTURE_INFO.t) (_ : Z) =>
                   int_of_GLuint (TEXTURE_INFO.ID e))
                (fun e => string_compare_eq _ _) Hle n 0 (-1)) as Hscan.
  unfold scan_test, scan_body in Hscan. cbv beta in Hscan.
  change (Z.of_nat 0) with 0 in Hscan.
  rewrite Hscan by lia. rewrite drop_0. cbn [mbind option_bind].
  by destruct (list_find _ _) as [[j e]|].
Qed.

(** ** Material lookup *)

Lemma FindMaterial_first (tag : string) (material : OBJECT_MATERIAL.t)
    (w : World) :
  FindMaterial tag material w =
  Some (match m_objectMaterials (this w) with
        | [] => (false, material)
        | _ :: _ =>
            match first_material tag (this w) with
            | Some (_, e) =>
                (true, OBJECT_MATERIAL.Make
                         (OBJECT_MATERIAL.diffuseColor e)
                         (OBJECT_MATERIAL.specularColor e)
                         (OBJECT_MATERIAL.shininess e)
                         (OBJECT_MATERIAL.tag material))
            | None => (true, material)
            end
        end, w).
Proof.
  unfold FindMaterial, first_material. cbv zeta.
  destruct (m_objectMaterials (this w)) as [|m0 ms] eqn:Hms; [done|].
  rewrite <- Hms. set (l := m_objectMaterials (this w)).
  assert ((Z.of_nat (length l) =? 0) = false) as ->
    by (apply Z.eqb_neq; subst l; rewrite Hms; simpl; lia).
  pose proof (while_scan l (length l)
                (fun e => OBJECT_MATERIAL.tag e = tag)
                (fun e => string_compare (OBJECT_MATERIAL.tag e) tag =? 0)
                (fun (m : OBJECT_MATERIAL.t) (e : OBJECT_MATERIAL.t) (_ : Z) =>
                   OBJECT_MATERIAL.Make
                     (OBJECT_MATERIAL.diffuseColor e)
                     (OBJECT_MATERIAL.specularColor e)
                     (OBJECT_MATERIAL.shininess e)
                     (OBJECT_MATERIAL.tag m))
                (fun e => string_compare_eq _ _) (le_n _)
                (length l) 0 material) as Hscan.
  unfold scan_test, scan_body in Hscan. cbv beta in Hscan.
  change (Z.of_nat 0) with 0 in Hscan.
  rewrite Hscan by lia. rewrite drop_0, firstn_all. cbn [mbind option_bind].
  destruct (list_find _ l) as [[j e]|]; reflexivity.
Qed.

(** ** Sequencing *)

Lemma after_after (w : World) (evs1 evs2 : list event) :
  after (after w evs1) evs2 = after w (evs1 ++ evs2).
Proof. unfold after. simpl. by rewrite app_assoc. Qed.

Lemma after_nil (w : World) : after w [] = w.
Proof. destruct w. unfold after. simpl. by rewrite app_nil_r. Qed.

Lemma emits_bind (sm : SceneManager) (c1 c2 : M unit) (evs1 evs2 : list event) :
  emits sm c1 evs1 -> emits sm c2 evs2 -> emits sm (c1;; c2) (evs1 ++ evs2).
Proof.
  intros H1 H2 w Hw. unfold mbind, M_bind. rewrite (H1 w Hw).
  rewrite (H2 (after w evs1)) by done. by rewrite after_after.
Qed.

Lemma emits_ret (sm : SceneManager) : emits sm (mret tt) [].
Proof. intros w _. unfold mret, M_ret. by rewrite after_nil. Qed.

Lemma emits_emit (sm : SceneManager) (e : event) : emits sm (emit e) [e].
Proof. by intros w _. Qed.

Lemma emits_mesh (sm : SceneManager) (c : mesh_call) :
  emits sm (mesh c) [Mesh c].
Proof. apply emits_emit. Qed.

Lemma emits_shader (sm : SceneManager) (c : shader_call) :
  is_Some (m_pShaderManager sm) -> emits sm (shader c) [Shader c].
Proof. intros [p Hp] w Hw. unfold shader. by rewrite Hw, Hp. Qed.

(** Reading the object, then going on with what was read. *)
Lemma emits_get_this (sm : SceneManager) (k : SceneManager -> M unit)
    (evs : list event) :
  emits sm (k sm) evs -> emits sm (x ← get_this; k x) evs.
Proof. intros H w Hw. unfold mbind, M_bind, get_this. rewrite Hw. by apply H. Qed.

(** ** The facade, one operation at a time *)

Lemma emits_SetTransformations sm scaleXYZ Xdeg Ydeg Zdeg positionXYZ :
  emits sm (SetTransformations scaleXYZ Xdeg Ydeg Zdeg positionXYZ)
    (if m_pShaderManager sm is Some _
     then [Shader (setMat4Value "model"
                     (model_matrix scaleXYZ Xdeg Ydeg Zdeg positionXYZ))]
     else []).
Proof.
  unfold SetTransformations. cbv zeta. apply emits_get_this.
  destruct (m_pShaderManager sm) eqn:Hp; [|apply emits_ret].
  apply emits_shader. by rewrite Hp.
Qed.

Lemma emits_SetShaderColor sm r g b a :
  emits sm (SetShaderColor r g b a)
    (if m_pShaderManager sm is Some _
     then [Shader (setIntValue "bUseTexture" 0);
           Shader (setVec4Value "objectColor" (Vec4 r g b a))]
     else []).
Proof.
  unfold SetShaderColor. cbv zeta. apply emits_get_this.
  destruct (m_pShaderManager sm) eqn:Hp; [|apply emits_ret].
  apply (emits_bind sm _ _ [_] [_]); apply emits_shader; by rewrite Hp.
Qed.

Lemma emits_SetTextureUVScale sm u v :
  emits sm (SetTextureUVScale u v)
    (if m_pShaderManager sm is Some _
     then [Shader (setVec2Value "UVscale" (Vec2 u v))]
     else []).
Proof.
  unfold SetTextureUVScale. apply emits_get_this.
  destruct (m_pShaderManager sm) eqn:Hp; [|apply emits_ret].
  apply emits_shader. by rewrite Hp.
Qed.

Lemma emits_SetShaderTexture sm tag :
  m_pShaderManager sm = None \/ wf_textures sm ->
  emits sm (SetShaderTexture tag)
    (if m_pShaderManager sm is Some _
     then [Shader (setIntValue "bUseTexture" 1);
           Shader (setSampler2DValue "objectTexture" (slot_of tag sm))]
     else []).
Proof.
  intros Hwf. unfold SetShaderTexture. apply emits_get_this.
  destruct (m_pShaderManager sm) eqn:Hp; [|apply emits_ret].
  destruct Hwf as [?|Hwf]; [done|].
  apply (emits_bind sm _ _ [_] [_]); [apply emits_shader; by rewrite Hp|].
  intros w Hw. unfold mbind, M_bind.
  rewrite FindTextureSlot_first by (by rewrite Hw).
  rewrite Hw. exact (emits_shader sm _ ltac:(by rewrite Hp) w Hw).
Qed.

Lemma shader_attached (c : shader_call) (w : World) :
  is_Some (m_pShaderManager (this w)) ->
  shader c w = Some (tt, after w [Shader c]).
Proof. intros [p Hp]. unfold shader. by rewrite Hp. Qed.

Lemma shader_null (c : shader_call) (w : World) :
  m_pShaderManager (this w) = None -> shader c w = None.
Proof. intros Hp. unfold shader. by rewrite Hp. Qed.

Lemma SetShaderMaterial_run (tag : string) (w : World) :
  SetShaderMaterial tag w =
  match m_objectMaterials (this w) with
  | [] => Some (tt, w)
  | _ :: _ =>
      let '(d, s, sh) := indeterminate (outside w) (trace w) in
      let material :=
        match first_material tag (this w) with
        | Some (_, e) => e
        | None => OBJECT_MATERIAL.Make d s sh ""
        end in
      if m_pShaderManager (this w) is Some _
      then Some (tt, after w (material_calls material))
      else None
  end.
Proof.
  unfold SetShaderMaterial, mbind, M_bind, get_this, uninitialized_material.
  destruct (m_objectMaterials (this w)) as [|m0 ms] eqn:Hms; [done|].
  cbn [length]. destruct (Z.ltb_spec 0 (Z.of_nat (S (length ms)))); [|lia].
  destruct (indeterminate (outside w) (trace w)) as [[d s] sh].
  rewrite FindMaterial_first, Hms. cbv zeta.
  destruct (m_pShaderManager (this w)) as [p|] eqn:Hp.
  - assert (forall evs, is_Some (m_pShaderManager (this (after w evs))))
      as Hafter by (intros; simpl; by rewrite Hp).
    assert (is_Some (m_pShaderManager (this w))) as Hw by (by rewrite Hp).
    destruct (first_material tag (this w)) as [[i e]|];
      rewrite shader_attached by apply Hw; cbv beta iota;
      rewrite shader_attached by apply Hafter; cbv beta iota;
      rewrite shader_attached by apply Hafter;
      by rewrite !after_after.
  - by destruct (first_material tag (this w)) as [[i e]|];
      rewrite shader_null.
Qed.

Lemma emits_SetShaderMaterial sm tag :
  m_objectMaterials sm = [] \/
  (is_Some (m_pShaderManager sm) /\ is_Some (first_material tag sm)) ->
  emits sm (SetShaderMaterial tag) (resolved_material_calls tag sm).
Proof.
  intros Hready w Hw. rewrite SetShaderMaterial_run, Hw.
  unfold resolved_material_calls.
  destruct (m_objectMaterials sm) as [|m0 ms]; [by rewrite after_nil|].
  destruct Hready as [?|[[p Hp] [[i e] He]]]; [done|].
  destruct (indeterminate _ _) as [[d s] sh]. by rewrite He, Hp.
Qed.

(** ** The scene script *)

Ltac emits_step :=
  first
    [ apply emits_mesh
    | apply emits_SetTransformations
    | apply emits_SetShaderColor
    | apply emits_SetShaderTexture; auto
    | apply emits_SetShaderMaterial; unfold materials_ready in *; tauto ].

Lemma RenderScene_emits (sm : SceneManager) :
  wf_textures sm -> materials_ready sm ->
  exists evs, emits sm RenderScene evs.
Proof.
  intros Hwf Hready. eexists. unfold RenderScene. cbv zeta.
  repeat (eapply emits_bind; [emits_step|]). emits_step.
Qed.

(** ** Registering textures *)

Lemma store_index_nat {A} (l : list A) (n : nat) (x : A) :
  (n < length l)%nat -> store_index l (Z.of_nat n) x = Some (<[n := x]> l).
Proof.
  intros Hlt. unfold store_index. rewrite Nat2Z.id.
  destruct (Z.leb_spec 0 (Z.of_nat n)); [|lia].
  by destruct (Z.ltb_spec (Z.of_nat n) (Z.of_nat (length l))); [|lia].
Qed.

Lemma register_texture_run (textureID : GLuint) (tag : string) (w : World)
    (n : nat) :
  m_loadedTextures (this w) = Z.of_nat n ->
  (n < length (m_textureIDs (this w)))%nat ->
  register_texture textureID tag w =
  Some (tt, with_this (fun sm =>
    MkSceneManager (m_pShaderManager sm)
      (<[n := TEXTURE_INFO.Make textureID tag]> (m_textureIDs sm))
      (Z.of_nat n + 1) (m_objectMaterials sm)) w).
Proof.
  intros Hn Hlt.
  destruct (lookup_lt_is_Some_2 _ _ Hlt) as [e He].
  unfold register_texture, mbind, M_bind, get_this, read_texture,
    write_texture, set_loadedTextures.
  rewrite Hn, at_index_nat, He. cbn [mbind option_bind].
  rewrite store_index_nat by done.
  cbn [mbind option_bind with_this this m_textureIDs].
  rewrite at_index_nat, list_lookup_insert_eq by done.
  unfold with_this. simpl.
  rewrite store_index_nat by (by rewrite length_insert).
  simpl. by rewrite list_insert_insert_eq.
Qed.

Lemma CreateGLTexture_cases (filename tag : string) (w : World) :
  (loadable (outside w) filename = false /\
   exists evs g,
     CreateGLTexture filename tag w =
     Some (false, MkWorld (this w) (outside w) g (trace w ++ evs))) \/
  (loadable (outside w) filename = true /\
   exists evs,
     CreateGLTexture filename tag w =
     match register_texture (gen_name (outside w) (generated w)) tag
             (MkWorld (this w) (outside w) (S (generated w)) (trace w ++ evs))
     with
     | Some (_, w') => Some (true, w')
     | None => None
     end).
Proof.
  unfold loadable, CreateGLTexture, mbind, M_bind, mret, M_ret, stb_load, emit.
  cbn [this outside generated trace].
  destruct (decode (outside w) filename) as [img|].
  - unfold cout, gl, gl_gen_texture, emit.
    cbn [this outside generated trace].
    destruct (img_channels img =? 3) eqn:E3;
      [|destruct (img_channels img =? 4) eqn:E4].
    + right. split; [done|]. eexists.
      cbn [this outside generated trace]. rewrite <- !app_assoc. reflexivity.
    + right. split; [done|]. eexists.
      cbn [this outside generated trace]. rewrite <- !app_assoc. reflexivity.
    + left. split; [done|]. do 2 eexists.
      cbn [this outside generated trace]. rewrite <- !app_assoc. reflexivity.
  - left. split; [done|]. do 2 eexists.
    unfold cout, emit. cbn [this outside generated trace].
    rewrite <- !app_assoc. reflexivity.
Qed.

Lemma loadable_false (o : Outside) (filename : string) :
  loadable o filename = false <->
  decode o filename = None \/
  exists img, decode o filename = Some img /\
              img_channels img ≠ 3 /\ img_channels img ≠ 4.
Proof.
  unfold loadable. destruct (decode o filename) as [img|].
  - rewrite orb_false_iff, !Z.eqb_neq. split.
    + intros [H3 H4]. right. by exists img.
    + by intros [?|(img' & [= <-] & H3 & H4)].
  - split; [by left | done].
Qed.

Lemma CreateGLTexture_refused (filename tag : string) (w : World) :
  loadable (outside w) filename = false ->
  exists w', CreateGLTexture filename tag w = Some (false, w') /\
             this w' = this w /\ outside w' = outside w.
Proof.
  intros Hl. destruct (CreateGLTexture_cases filename tag w)
    as [(_ & evs & g & ->)|[Hl' _]]; [|congruence].
  by eexists.
Qed.

Lemma CreateGLTexture_false (filename tag : string) (w w' : World) :
  CreateGLTexture filename tag w = Some (false, w') -> this w' = this w.
Proof.
  destruct (CreateGLTexture_cases filename tag w)
    as [(_ & evs & g & ->)|(_ & evs & ->)].
  - by intros [= <-].
  - by destruct (register_texture _ _ _) as [[[] ?]|].
Qed.

Lemma CreateGLTexture_registers (filename tag : string) (w : World) (n : nat) :
  loadable (outside w) filename = true ->
  m_loadedTextures (this w) = Z.of_nat n ->
  (n < length (m_textureIDs (this w)))%nat ->
  exists evs,
    CreateGLTexture filename tag w =
    Some (true,
      MkWorld
        (MkSceneManager (m_pShaderManager (this w))
           (<[n := TEXTURE_INFO.Make (gen_name (outside w) (generated w)) tag]>
              (m_textureIDs (this w)))
           (Z.of_nat n + 1) (m_objectMaterials (this w)))
        (outside w) (S (generated w)) (trace w ++ evs)).
Proof.
  intros Hl Hn Hlt. destruct (CreateGLTexture_cases filename tag w)
    as [[Hl' _]|(_ & evs & ->)]; [congruence|].
  exists evs. by rewrite (register_texture_run _ _ _ n).
Qed.

Lemma registered_push (p : option positive) (ids : list TEXTURE_INFO.t)
    (mats : list OBJECT_MATERIAL.t) (n : nat) (e : TEXTURE_INFO.t) :
  (n < length ids)%nat ->
  registered (MkSceneManager p (<[n := e]> ids) (Z.of_nat n + 1) mats) =
  registered (MkSceneManager p ids (Z.of_nat n) mats) ++ [e].
Proof.
  intros Hlt. unfold registered. simpl.
  replace (Z.to_nat (Z.of_nat n + 1)) with (S n) by lia. rewrite Nat2Z.id.
  rewrite (take_S_r _ _ e) by (by apply list_lookup_insert_eq).
  by rewrite take_insert_ge by lia.
Qed.

(** ** The two loops over the registry *)

Lemma BindGLTextures_loop (sm : SceneManager) (n : nat) :
  m_loadedTextures sm = Z.of_nat n ->
  (n <= length (m_textureIDs sm))%nat ->
  forall (fuel k : nat) (w : World),
    this w = sm -> (k <= n)%nat -> (n - k <= fuel)%nat ->
    for_int fuel
      (fun i => sm ← get_this; mret (i <? m_loadedTextures sm))
      (fun i =>
         gl (glActiveTexture (GL_TEXTURE0 + i));;
         e ← read_texture i;
         gl (glBindTexture GL_TEXTURE_2D (TEXTURE_INFO.ID e)))
      (Z.of_nat k) w =
    Some (tt, after w (bind_calls_from k (drop k (registered sm)))).
Proof.
  intros Hn Hle. unfold registered. rewrite Hn, Nat2Z.id.
  assert (forall k (w : World), this w = sm -> (n <= k)%nat ->
            (get_this ≫= fun sm => mret (Z.of_nat k <? m_loadedTextures sm)) w
            = Some (false, w)) as Hstop.
  { intros k w Hw Hk. unfold mbind, M_bind, get_this, mret, M_ret.
    rewrite Hw, Hn. by destruct (Z.ltb_spec (Z.of_nat k) (Z.of_nat n)); [lia|]. }
  induction fuel as [|fuel IH]; intros k w Hw Hk Hfuel.
  - cbn [for_int]. unfold mbind at 1, M_bind at 1.
    rewrite Hstop by (done || lia).
    rewrite drop_ge by (rewrite length_take; lia).
    unfold mret, M_ret. by rewrite after_nil.
  - cbn [for_int]. unfold mbind at 1, M_bind at 1.
    destruct (decide (k = n)) as [->|Hne].
    { rewrite Hstop by (done || lia).
      rewrite drop_ge by (rewrite length_take; lia).
      unfold mret, M_ret. by rewrite after_nil. }
    destruct (lookup_lt_is_Some_2 (m_textureIDs sm) k) as [e He]; [lia|].
    unfold get_this at 1, mbind at 1, M_bind at 1, mret at 1, M_ret at 1.
    rewrite Hw, Hn.
    destruct (Z.ltb_spec (Z.of_nat k) (Z.of_nat n)); [|lia].
    unfold mbind at 1, M_bind at 1.
    unfold mbind at 1, M_bind at 1, gl at 1, emit at 1.
    unfold mbind at 1, M_bind at 1, read_texture at 1.
    cbn [this]. rewrite Hw, at_index_nat, He. cbn [mbind option_bind].
    unfold gl, emit. cbn [this outside generated trace].
    replace (Z.of_nat k + 1) with (Z.of_nat (S k)) by lia.
    rewrite IH by (done || lia).
    rewrite (drop_S _ e k) by (by rewrite lookup_take_lt by lia).
    unfold after. cbn [this outside generated trace bind_calls_from bind_calls].
    rewrite Hw. by rewrite <- !app_assoc.
Qed.

Lemma BindGLTextures_run (w : World) :
  wf_textures (this w) ->
  BindGLTextures w =
  Some (tt, after w (bind_calls_from 0 (registered (this w)))).
Proof.
  intros Hwf. destruct (wf_counter _ Hwf) as (n & Hn & Hle).
  unfold BindGLTextures. unfold mbind at 1, M_bind at 1, get_this at 1.
  rewrite Hn, Nat2Z.id.
  pose proof (BindGLTextures_loop (this w) n Hn Hle n 0 w) as Hloop.
  change (Z.of_nat 0) with 0 in Hloop.
  rewrite Hloop by (done || lia). by rewrite drop_0.
Qed.

(** Calls that hand out texture names release none. *)
Lemma live_textures_gen (t : list event) (names : list GLuint) (name : GLuint) :
  name ∈ live_textures t ->
  name ∈ live_textures (t ++ ((fun x => GL (glGenTextures 1 x)) <$> names)).
Proof.
  unfold live_textures. rewrite foldl_app. generalize (foldl gl_step [] t).
  induction names as [|x names IH]; intros live Hin; [done|].
  cbn [fmap list_fmap foldl]. apply IH. simpl. by right.
Qed.

Lemma DestroyGLTextures_loop (n : nat) :
  forall (fuel k : nat) (w : World),
    m_loadedTextures (this w) = Z.of_nat n ->
    (n <= length (m_textureIDs (this w)))%nat ->
    (k <= n)%nat -> (n - k <= fuel)%nat ->
    exists w' names,
      for_int fuel
        (fun i => sm ← get_this; mret (i <? m_loadedTextures sm))
        (fun i =>
           e ← read_texture i;
           name ← gl_gen_texture;
           write_texture i (TEXTURE_INFO.Make name (TEXTURE_INFO.tag e)))
        (Z.of_nat k) w = Some (tt, w') /\
      trace w' = trace w ++ ((fun x => GL (glGenTextures 1 x)) <$> names) /\
      length names = (n - k)%nat /\
      m_loadedTextures (this w') = Z.of_nat n.
Proof.
  assert (forall k (w : World), m_loadedTextures (this w) = Z.of_nat n ->
            (n <= k)%nat ->
            (get_this ≫= fun sm => mret (Z.of_nat k <? m_loadedTextures sm)) w
            = Some (false, w)) as Hstop.
  { intros k w Hn Hk. unfold mbind, M_bind, get_this, mret, M_ret.
    rewrite Hn. by destruct (Z.ltb_spec (Z.of_nat k) (Z.of_nat n)); [lia|]. }
  induction fuel as [|fuel IH]; intros k w Hn Hle Hk Hfuel.
  - exists w, []. cbn [for_int]. unfold mbind at 1, M_bind at 1.
    rewrite Hstop by (done || lia). simpl. rewrite app_nil_r.
    repeat split; (done || lia).
  - cbn [for_int]. unfold mbind at 1, M_bind at 1.
    destruct (decide (k = n)) as [->|Hne].
    { exists w, []. rewrite Hstop by (done || lia). simpl. rewrite app_nil_r.
      repeat split; (done || lia). }
    destruct (lookup_lt_is_Some_2 (m_textureIDs (this w)) k) as [e He]; [lia|].
    unfold get_this at 1, mbind at 1, M_bind at 1, mret at 1, M_ret at 1.
    rewrite Hn.
    destruct (Z.ltb_spec (Z.of_nat k) (Z.of_nat n)); [|lia].
    unfold mbind at 1, M_bind at 1.
    unfold mbind at 1, M_bind at 1, read_texture at 1.
    rewrite at_index_nat, He. cbn [mbind option_bind].
    unfold mbind at 1, M_bind at 1, gl_gen_texture at 1, write_texture at 1.
    cbn [this outside generated trace].
    rewrite store_index_nat by lia. cbn [mbind option_bind].
    replace (Z.of_nat k + 1) with (Z.of_nat (S k)) by lia.
    match goal with
    | |- context [for_int fuel _ _ _ ?w1] =>
        destruct (IH (S k) w1) as (w' & names & Hrun & Htrace & Hlen & Hn')
    end; [done | simpl; rewrite length_insert; lia | lia | lia |].
    exists w', (gen_name (outside w) (generated w) :: names).
    rewrite Hrun, Htrace. simpl. rewrite <- app_assoc.
    repeat split; (done || lia).
Qed.

Lemma DestroyGLTextures_run (w : World) :
  wf_textures (this w) ->
  exists w' names,
    DestroyGLTextures w = Some (tt, w') /\
    trace w' = trace w ++ ((fun x => GL (glGenTextures 1 x)) <$> names) /\
    length names = Z.to_nat (m_loadedTextures (this w)).
Proof.
  intros Hwf. destruct (wf_counter _ Hwf) as (n & Hn & Hle).
  unfold DestroyGLTextures. unfold mbind at 1, M_bind at 1, get_this at 1.
  rewrite Hn, Nat2Z.id.
  destruct (DestroyGLTextures_loop n n 0 w Hn Hle)
    as (w' & names & Hrun & Htrace & Hlen & _); [lia | lia |].
  change (Z.of_nat 0) with 0 in Hrun.
  exists w', names. rewrite Hrun. repeat split; (done || lia).
Qed.

(** ** A run of loads *)

Lemma load_all_run (loads : list (string * string)) :
  forall (w : World) (n : nat),
    m_loadedTextures (this w) = Z.of_nat n ->
    (n + length loads <= length (m_textureIDs (this w)))%nat ->
    exists w',
      load_all loads w =
        Some ((fun p => loadable (outside w) p.1) <$> loads, w') /\
      outside w' = outside w /\
      length (m_textureIDs (this w')) = length (m_textureIDs (this w)) /\
      m_loadedTextures (this w') = Z.of_nat (length (registered (this w'))) /\
      TEXTURE_INFO.tag <$> registered (this w') =
        (TEXTURE_INFO.tag <$> registered (this w)) ++
        (snd <$> filter (fun p => loadable (outside w) p.1 = true) loads).
Proof.
  induction loads as [|[filename tag] rest IH]; intros w n Hn Hle.
  - exists w. cbn. rewrite app_nil_r. repeat split.
    unfold registered. rewrite Hn, Nat2Z.id, length_take. simpl in Hle. lia.
  - cbn [load_all length] in *. unfold mbind at 1, M_bind at 1.
    destruct (loadable (outside w) filename) eqn:Hl.
    + destruct (CreateGLTexture_registers filename tag w n Hl Hn)
        as [evs ->]; [lia|].
      cbv beta iota. unfold mbind at 1, M_bind at 1.
      match goal with
      | |- context [load_all rest ?w1] =>
          destruct (IH w1 (S n)) as (w' & Hrun & Ho & Hlen & Hcount & Htags)
      end; [simpl; lia | simpl; rewrite length_insert; lia |].
      exists w'. rewrite Hrun. unfold mret, M_ret.
      cbn [outside this m_textureIDs] in *. rewrite length_insert in Hlen.
      rewrite filter_cons_True by done. cbn [fmap list_fmap fst snd]. rewrite Hl.
      repeat split; try done.
      rewrite Htags, registered_push by lia. rewrite fmap_app, <- app_assoc.
      do 2 f_equal. unfold registered. simpl. by rewrite Hn.
    + destruct (CreateGLTexture_refused filename tag w Hl)
        as (w1 & -> & Hthis & Hout).
      cbv beta iota. unfold mbind at 1, M_bind at 1.
      destruct (IH w1 n) as (w' & Hrun & Ho & Hlen & Hcount & Htags);
        [by rewrite Hthis | rewrite Hthis; lia |].
      exists w'. rewrite Hrun. unfold mret, M_ret.
      rewrite Hout in *. rewrite Hthis in *.
      rewrite filter_cons_False by (simpl; congruence).
      cbn [fmap list_fmap fst snd]. by rewrite Hl.
Qed.

Lemma first_texture_Some (tag : string) (sm : SceneManager) (i : nat)
    (e : TEXTURE_INFO.t) :
  registered sm !! i = Some e ->
  TEXTURE_INFO.tag e = tag ->
  (forall j e', (j < i)%nat -> registered sm !! j = Some e' ->
                TEXTURE_INFO.tag e' ≠ tag) ->
  first_texture tag sm = Some (i, e).
Proof.
  intros Hi He Hfirst. apply list_find_Some. repeat split; [done..|].
  intros j e' Hj Hlt. by apply (Hfirst j).
Qed.

Lemma first_texture_None (tag : string) (sm : SceneManager) :
  (forall e, e ∈ registered sm -> TEXTURE_INFO.tag e ≠ tag) ->
  first_texture tag sm = None.
Proof. intros Hno. apply list_find_None, Forall_forall. exact Hno. Qed.

Lemma first_material_Some (tag : string) (sm : SceneManager) (i : nat)
    (e : OBJECT_MATERIAL.t) :
  m_objectMaterials sm !! i = Some e ->
  OBJECT_MATERIAL.tag e = tag ->
  (forall j e', (j < i)%nat -> m_objectMaterials sm !! j = Some e' ->
                OBJECT_MATERIAL.tag e' ≠ tag) ->
  first_material tag sm = Some (i, e).
Proof.
  intros Hi He Hfirst. apply list_find_Some. repeat split; [done..|].
  intros j e' Hj Hlt. by apply (Hfirst j).
Qed.

Lemma first_material_None (tag : string) (sm : SceneManager) :
  (forall e, e ∈ m_objectMaterials sm -> OBJECT_MATERIAL.tag e ≠ tag) ->
  first_material tag sm = None.
Proof. intros Hno. apply list_find_None, Forall_forall. exact Hno. Qed.

Lemma int_of_GLuint_small (u : GLuint) :
  0 <= u < 2 ^ 31 -> int_of_GLuint u = u.
Proof.
  intros Hu. unfold int_of_GLuint.
  by destruct (Z.ltb_spec u (2 ^ 31)); [|lia].
Qed.

(** ** Scene preparation establishes what the scene script needs *)

Lemma CreateGLTexture_step (filename tag : string) (w : World) (n : nat) :
  m_loadedTextures (this w) = Z.of_nat n ->
  (n < length (m_textureIDs (this w)))%nat ->
  exists b w' n',
    CreateGLTexture filename tag w = Some (b, w') /\
    m_loadedTextures (this w') = Z.of_nat n' /\ (n' <= S n)%nat /\
    length (m_textureIDs (this w')) = length (m_textureIDs (this w)) /\
    m_pShaderManager (this w') = m_pShaderManager (this w) /\
    m_objectMaterials (this w') = m_objectMaterials (this w).
Proof.
  intros Hn Hlt. destruct (loadable (outside w) filename) eqn:Hl.
  - destruct (CreateGLTexture_registers filename tag w n Hl Hn Hlt) as [evs ->].
    eexists true, _, (S n). split; [reflexivity|]. simpl.
    rewrite length_insert. repeat split; lia.
  - destruct (CreateGLTexture_refused filename tag w Hl) as (w' & -> & Hthis & _).
    exists false, w', n. rewrite Hthis. repeat split; (done || lia).
Qed.

Lemma first_material_is_Some (tag : string) (sm : SceneManager)
    (e : OBJECT_MATERIAL.t) :
  e ∈ m_objectMaterials sm -> OBJECT_MATERIAL.tag e = tag ->
  is_Some (first_material tag sm).
Proof. intros He Htag. by apply (list_find_elem_of _ _ e). Qed.

Lemma emits_SetupSceneLights (sm : SceneManager) :
  is_Some (m_pShaderManager sm) -> exists evs, emits sm SetupSceneLights evs.
Proof.
  intros Hp. eexists. unfold SetupSceneLights.
  repeat (eapply emits_bind; [by apply emits_shader|]). by apply emits_shader.
Qed.

Lemma PrepareScene_ready (w : World) :
  wf_textures (this w) ->
  m_loadedTextures (this w) = 0 ->
  is_Some (m_pShaderManager (this w)) ->
  exists w',
    PrepareScene w = Some (tt, w') /\
    wf_textures (this w') /\ materials_ready (this w').
Proof.
  intros [Hlen _] H0 Hp. unfold MAX_TEXTURES in Hlen.
  unfold PrepareScene, LoadSceneTextures.
  unfold mbind at 1, M_bind at 1, mbind at 1, M_bind at 1.
  destruct (CreateGLTexture_step
              "C:/Users/adrea/OneDrive/Pictures/Screenshots/object texture one.jpg"
              "couch" w 0%nat H0)
    as (b1 & w1 & n1 & -> & Hn1 & Hle1 & Hlen1 & Hp1 & Hm1); [lia|].
  cbv beta iota. unfold mbind at 1, M_bind at 1.
  destruct (CreateGLTexture_step
              "C:/Users/adrea/OneDrive/Pictures/Screenshots/object texture three.jpg"
              "wall" w1 n1 Hn1)
    as (b2 & w2 & n2 & -> & Hn2 & Hle2 & Hlen2 & Hp2 & Hm2); [lia|].
  cbv beta iota. unfold mbind at 1, M_bind at 1.
  destruct (CreateGLTexture_step
              "C:/Users/adrea/OneDrive/Pictures/Screenshots/object texture two.jpg"
              "floor" w2 n2 Hn2)
    as (b3 & w3 & n3 & -> & Hn3 & Hle3 & Hlen3 & Hp3 & Hm3); [lia|].
  cbv beta iota.
  assert (wf_textures (this w3)) as Hwf3
    by (unfold wf_textures, MAX_TEXTURES; lia).
  rewrite (BindGLTextures_run w3 Hwf3).
  unfold mbind at 1, M_bind at 1, DefineObjectMaterials.
  unfold mbind at 1, M_bind at 1, push_back_material, with_this, after.
  cbn [this outside generated trace m_pShaderManager m_textureIDs
       m_loadedTextures m_objectMaterials].
  unfold mbind at 1, M_bind at 1.
  match goal with
  | |- context [SetupSceneLights ?w4] =>
      destruct (emits_SetupSceneLights (this w4)) as [evs Hlights];
        [simpl; by rewrite Hp3, Hp2, Hp1|];
      rewrite (Hlights w4 eq_refl)
  end.
  eexists. unfold mbind, M_bind, mesh, emit.
  cbn [this outside generated trace]. split; [reflexivity|].
  cbn [this]. split; [exact Hwf3|].
  right. cbn [m_pShaderManager]. split; [by rewrite Hp3, Hp2, Hp1|].
  split.
  - eapply (first_material_is_Some "wood").
    + cbn [m_objectMaterials]. apply elem_of_app. right.
      apply list_elem_of_singleton. reflexivity.
    + reflexivity.
  - eapply (first_material_is_Some "fabric").
    + cbn [m_objectMaterials]. apply elem_of_app. left. apply elem_of_app.
      right. apply list_elem_of_singleton. reflexivity.
    + reflexivity.
Qed.

(** After [PrepareScene], from a fresh object with a shader manager, two
    calls of [RenderScene] issue the same calls. *)
Lemma PrepareScene_then_RenderScene (w : World) :
  wf_textures (this w) ->
  m_loadedTextures (this w) = 0 ->
  is_Some (m_pShaderManager (this w)) ->
  exists w' evs,
    PrepareScene w = Some (tt, w') /\
    RenderScene w' = Some (tt, after w' evs) /\
    RenderScene (after w' evs) = Some (tt, after (after w' evs) evs).
Proof.
  intros Hwf H0 Hp.
  destruct (PrepareScene_ready w Hwf H0 Hp) as (w' & Hrun & Hwf' & Hready).
  destruct (RenderScene_emits (this w') Hwf' Hready) as [evs Hevs].
  exists w', evs. split; [exact Hrun|]. split; by apply Hevs.
Qed.

(** The script on the sample scene: 248 calls, 78 of them draws. *)
Example RenderScene_prepared_world :
  exists w',
    RenderScene (prepared_world (Some 1%positive)) = Some (tt, w') /\
    this w' = prepared_manager (Some 1%positive) /\
    length (trace w') = (3 + 248)%nat /\
    length (List.filter is_draw (trace w')) = 78%nat.
Proof. eexists. repeat split; vm_compute; reflexivity. Qed.

(** * The claims *)

(** C1. Given a shader manager, [SetTransformations] pushes as the uniform
    ["model"] exactly Translate(T) * RotateZ(Zdeg) * RotateY(Ydeg) *
    RotateX(Xdeg) * Scale(S), each rotation built from the angle that
    [glm::radians] makes of the degrees, and pushes nothing else. *)
Theorem SetTransformations_model_matrix (scaleXYZ : vec3)
    (XrotationDegrees YrotationDegrees ZrotationDegrees : float)
    (positionXYZ : vec3) (w : World) :
  is_Some (m_pShaderManager (this w)) ->
  SetTransformations scaleXYZ XrotationDegrees YrotationDegrees
    ZrotationDegrees positionXYZ w =
  Some (tt, after w
    [Shader (setMat4Value "model"
       (glm_translate positionXYZ
        * glm_rotate (glm_radians ZrotationDegrees) (Vec3 0.0 0.0 1.0)
        * glm_rotate (glm_radians YrotationDegrees) (Vec3 0.0 1.0 0.0)
        * glm_rotate (glm_radians XrotationDegrees) (Vec3 1.0 0.0 0.0)
        * glm_scale scaleXYZ)%mat4)]).
Proof.
  intros [p Hp].
  rewrite (emits_SetTransformations (this w) scaleXYZ XrotationDegrees
             YrotationDegrees ZrotationDegrees positionXYZ w eq_refl).
  by rewrite Hp.
Qed.

Lemma SetTransformations_model_matrix_witness :
  is_Some (m_pShaderManager (this (prepared_world (Some 1%positive)))) /\
  SetTransformations (Vec3 2 1 1) 0 90 0 (Vec3 1 0 0)
    (prepared_world (Some 1%positive)) =
  Some (tt, after (prepared_world (Some 1%positive))
    [Shader (setMat4Value "model"
       (glm_translate (Vec3 1 0 0)
        * glm_rotate (glm_radians 0) (Vec3 0.0 0.0 1.0)
        * glm_rotate (glm_radians 90) (Vec3 0.0 1.0 0.0)
        * glm_rotate (glm_radians 0) (Vec3 1.0 0.0 0.0)
        * glm_scale (Vec3 2 1 1))%mat4)]).
Proof.
  assert (is_Some (m_pShaderManager (this (prepared_world (Some 1%positive)))))
    as H by (simpl; eauto).
  split; [exact H|]. apply SetTransformations_model_matrix. exact H.
Defined.

(** C2. [FindMaterial] on an empty registry returns false for every tag;
    on a registry that is not empty it returns true, with the caller's
    material unchanged when no entry carries the tag, and with the diffuse
    color, specular color and shininess of the first entry that carries it
    otherwise. *)
Theorem FindMaterial_asymmetry (tag : string) (material : OBJECT_MATERIAL.t)
    (w : World) :
  (m_objectMaterials (this w) = [] ->
   FindMaterial tag material w = Some ((false, material), w)) /\
  (m_objectMaterials (this w) ≠ [] ->
   (forall e, e ∈ m_objectMaterials (this w) -> OBJECT_MATERIAL.tag e ≠ tag) ->
   FindMaterial tag material w = Some ((true, material), w)) /\
  (forall (i : nat) (e : OBJECT_MATERIAL.t),
     m_objectMaterials (this w) !! i = Some e ->
     OBJECT_MATERIAL.tag e = tag ->
     (forall j e', (j < i)%nat -> m_objectMaterials (this w) !! j = Some e' ->
                   OBJECT_MATERIAL.tag e' ≠ tag) ->
     exists material',
       FindMaterial tag material w = Some ((true, material'), w) /\
       OBJECT_MATERIAL.diffuseColor material' = OBJECT_MATERIAL.diffuseColor e /\
       OBJECT_MATERIAL.specularColor material' = OBJECT_MATERIAL.specularColor e /\
       OBJECT_MATERIAL.shininess material' = OBJECT_MATERIAL.shininess e).
Proof.
  rewrite FindMaterial_first. repeat split.
  - by intros ->.
  - intros Hne Hno. rewrite (first_material_None _ _ Hno).
    by destruct (m_objectMaterials (this w)).
  - intros i e Hi He Hfirst.
    rewrite (first_material_Some _ _ _ _ Hi He Hfirst).
    destruct (m_objectMaterials (this w)) as [|m0 ms]; [done|].
    by eexists.
Qed.

Ltac no_entry :=
  let e := fresh "e" in
  let He := fresh "He" in
  intros e He; revert e He; apply Forall_forall;
  repeat (constructor; [discriminate|]); constructor.

Ltac first_entry :=
  let j := fresh "j" in
  let Hj := fresh "Hj" in
  let He := fresh "He" in
  intros j ? Hj He;
  repeat (destruct j as [|j]; [injection He as <-; discriminate|]); lia.

Lemma FindMaterial_asymmetry_witness :
  FindMaterial "wood" default_material (empty_world None) =
    Some ((false, default_material), empty_world None) /\
  FindMaterial "glass" default_material (prepared_world None) =
    Some ((true, default_material), prepared_world None) /\
  exists material',
    FindMaterial "wood" default_material (prepared_world None) =
      Some ((true, material'), prepared_world None) /\
    OBJECT_MATERIAL.diffuseColor material' = Vec3 0.5 0.5 0.5 /\
    OBJECT_MATERIAL.specularColor material' = Vec3 0.4 0.4 0.4 /\
    OBJECT_MATERIAL.shininess material' = 0.3%Q.
Proof.
  split; [|split].
  - apply (FindMaterial_asymmetry "wood" default_material (empty_world None)).
    reflexivity.
  - apply (FindMaterial_asymmetry "glass" default_material (prepared_world None)).
    + discriminate.
    + no_entry.
  - apply (proj2 (proj2 (FindMaterial_asymmetry "wood" default_material
                           (prepared_world None))) 1%nat
             (OBJECT_MATERIAL.Make (Vec3 0.5 0.5 0.5) (Vec3 0.4 0.4 0.4) 0.3
                "wood")).
    + reflexivity.
    + reflexivity.
    + first_entry.
Defined.

(** C3. For a tag that no entry of a registry that is not empty carries,
    [SetShaderMaterial] still pushes the diffuse color, the specular color
    and the shininess: the values its uninitialised local material happens
    to hold, which no registry entry supplied. *)
Theorem SetShaderMaterial_absent_tag (materialTag : string) (w : World) :
  is_Some (m_pShaderManager (this w)) ->
  m_objectMaterials (this w) ≠ [] ->
  (forall e, e ∈ m_objectMaterials (this w) ->
             OBJECT_MATERIAL.tag e ≠ materialTag) ->
  exists d s sh,
    indeterminate (outside w) (trace w) = (d, s, sh) /\
    SetShaderMaterial materialTag w =
    Some (tt, after w
      [Shader (setVec3Value "material.diffuseColor" d);
       Shader (setVec3Value "material.specularColor" s);
       Shader (setFloatValue "material.shininess" sh)]).
Proof.
  intros [p Hp] Hne Hno. rewrite SetShaderMaterial_run.
  rewrite (first_material_None _ _ Hno), Hp.
  destruct (m_objectMaterials (this w)) as [|m0 ms]; [done|].
  destruct (indeterminate (outside w) (trace w)) as [[d s] sh].
  by exists d, s, sh.
Qed.

Lemma SetShaderMaterial_absent_tag_witness :
  exists d s sh,
    indeterminate (outside (prepared_world (Some 1%positive)))
      (trace (prepared_world (Some 1%positive))) = (d, s, sh) /\
    SetShaderMaterial "glass" (prepared_world (Some 1%positive)) =
    Some (tt, after (prepared_world (Some 1%positive))
      [Shader (setVec3Value "material.diffuseColor" d);
       Shader (setVec3Value "material.specularColor" s);
       Shader (setFloatValue "material.shininess" sh)]).
Proof.
  apply SetShaderMaterial_absent_tag.
  - simpl. eauto.
  - discriminate.
  - no_entry.
Defined.

(** C4. On every well-formed texture registry, with the materials of the
    scene resolvable, [RenderScene] returns, leaves the object unchanged,
    and a second call issues exactly the calls of the first: the same
    uniforms and draws in the same order. *)
Theorem RenderScene_idempotent (w : World) :
  wf_textures (this w) -> materials_ready (this w) ->
  exists evs,
    RenderScene w = Some (tt, after w evs) /\
    RenderScene (after w evs) = Some (tt, after (after w evs) evs).
Proof.
  intros Hwf Hready.
  destruct (RenderScene_emits (this w) Hwf Hready) as [evs Hevs].
  exists evs. split; by apply Hevs.
Qed.

Lemma RenderScene_idempotent_witness :
  wf_textures (this (prepared_world (Some 1%positive))) /\
  materials_ready (this (prepared_world (Some 1%positive))) /\
  exists evs,
    RenderScene (prepared_world (Some 1%positive)) =
      Some (tt, after (prepared_world (Some 1%positive)) evs) /\
    RenderScene (after (prepared_world (Some 1%positive)) evs) =
      Some (tt, after (after (prepared_world (Some 1%positive)) evs) evs).
Proof.
  assert (wf_textures (this (prepared_world (Some 1%positive)))) as Hwf.
  { unfold wf_textures, MAX_TEXTURES. simpl. lia. }
  assert (materials_ready (this (prepared_world (Some 1%positive)))) as Hready.
  { right. repeat split; vm_compute; eauto. }
  split; [exact Hwf|]. split; [exact Hready|].
  apply RenderScene_idempotent; assumption.
Defined.

(** C5. [CreateGLTexture] returns false whenever the file cannot be decoded
    or decodes to a channel count other than 3 or 4, and a call that
    returns false leaves the registry, entries and count, as it was. *)
Theorem CreateGLTexture_failure_registers_nothing (filename tag : string)
    (w : World) :
  (decode (outside w) filename = None \/
   (exists img, decode (outside w) filename = Some img /\
                img_channels img ≠ 3 /\ img_channels img ≠ 4) ->
   exists w', CreateGLTexture filename tag w = Some (false, w')) /\
  (forall w', CreateGLTexture filename tag w = Some (false, w') ->
     m_textureIDs (this w') = m_textureIDs (this w) /\
     m_loadedTextures (this w') = m_loadedTextures (this w)).
Proof.
  split.
  - intros Hbad. apply loadable_false in Hbad.
    destruct (CreateGLTexture_refused filename tag w Hbad) as (w' & Hrun & _).
    by exists w'.
  - intros w' Hrun. by rewrite (CreateGLTexture_false _ _ _ _ Hrun).
Qed.

Lemma CreateGLTexture_failure_registers_nothing_witness :
  exists w',
    CreateGLTexture "gray.png" "floor" (prepared_world None) = Some (false, w') /\
    m_textureIDs (this w') = m_textureIDs (this (prepared_world None)) /\
    m_loadedTextures (this w') = 3.
Proof.
  destruct (CreateGLTexture_failure_registers_nothing "gray.png" "floor"
              (prepared_world None)) as [Hfails Hsame].
  destruct Hfails as [w' Hrun].
  { right. exists gray_image. repeat split; [discriminate..]. }
  exists w'. split; [exact Hrun|]. exact (Hsame w' Hrun).
Defined.

(** C6. In a well-formed registry [FindTextureID] and [FindTextureSlot]
    return the handle (converted to [int]) and the slot of the first entry,
    in registration order, that carries the tag, and -1 when none does; two
    loads under one tag add two entries, at consecutive slots. *)
Theorem texture_lookup_first_match (tag : string) (w : World) :
  wf_textures (this w) ->
  (forall (i : nat) (e : TEXTURE_INFO.t),
     registered (this w) !! i = Some e ->
     TEXTURE_INFO.tag e = tag ->
     (forall j e', (j < i)%nat -> registered (this w) !! j = Some e' ->
                   TEXTURE_INFO.tag e' ≠ tag) ->
     FindTextureID tag w = Some (int_of_GLuint (TEXTURE_INFO.ID e), w) /\
     FindTextureSlot tag w = Some (Z.of_nat i, w)) /\
  ((forall e, e ∈ registered (this w) -> TEXTURE_INFO.tag e ≠ tag) ->
   FindTextureID tag w = Some (-1, w) /\
   FindTextureSlot tag w = Some (-1, w)) /\
  (forall filename1 filename2 : string,
     loadable (outside w) filename1 = true ->
     loadable (outside w) filename2 = true ->
     m_loadedTextures (this w) + 2 <= MAX_TEXTURES ->
     exists w',
       load_all [(filename1, tag); (filename2, tag)] w =
         Some ([true; true], w') /\
       m_loadedTextures (this w') = m_loadedTextures (this w) + 2 /\
       registered (this w') =
         registered (this w) ++
         [TEXTURE_INFO.Make (gen_name (outside w) (generated w)) tag;
          TEXTURE_INFO.Make (gen_name (outside w) (S (generated w))) tag]).
Proof.
  intros Hwf. rewrite FindTextureID_first, FindTextureSlot_first by done.
  split; [|split].
  - intros i e Hi He Hfirst.
    by rewrite (first_texture_Some _ _ _ _ Hi He Hfirst).
  - intros Hno. by rewrite (first_texture_None _ _ Hno).
  - intros f1 f2 Hl1 Hl2 Hroom.
    destruct (wf_counter _ Hwf) as (n & Hn & Hle).
    destruct Hwf as [Hlen _]. rewrite Hn in Hroom.
    cbn [load_all]. unfold mbind at 1, M_bind at 1.
    destruct (CreateGLTexture_registers f1 tag w n Hl1 Hn) as [evs1 ->];
      [lia|].
    cbv beta iota. unfold mbind at 1, M_bind at 1, mbind at 1, M_bind at 1.
    match goal with
    | |- context [CreateGLTexture f2 tag ?w1] =>
        destruct (CreateGLTexture_registers f2 tag w1 (S n)) as [evs2 ->]
    end; [done | simpl; lia | simpl; rewrite length_insert; lia |].
    eexists. unfold mret, M_ret. cbn [this outside generated trace
      m_pShaderManager m_textureIDs m_loadedTextures m_objectMaterials].
    split; [reflexivity|].
    cbn [this m_loadedTextures]. split; [rewrite Hn; lia|].
    replace (Z.of_nat (S n)) with (Z.of_nat n + 1) by lia.
    replace (Z.of_nat n + 1 + 1) with (Z.of_nat (S n) + 1) by lia.
    rewrite registered_push by (rewrite length_insert; lia).
    replace (Z.of_nat (S n)) with (Z.of_nat n + 1) by lia.
    rewrite registered_push by lia. rewrite <- app_assoc.
    f_equal. unfold registered. simpl. by rewrite Hn.
Qed.

Lemma texture_lookup_first_match_witness :
  FindTextureID "wall" (prepared_world None) = Some (2, prepared_world None) /\
  FindTextureSlot "wall" (prepared_world None) = Some (1, prepared_world None) /\
  FindTextureID "door" (prepared_world None) = Some (-1, prepared_world None) /\
  FindTextureSlot "door" (prepared_world None) = Some (-1, prepared_world None) /\
  exists w',
    load_all [("a.png", "door"); ("b.png", "door")] (prepared_world None) =
      Some ([true; true], w') /\
    m_loadedTextures (this w') = 5 /\
    registered (this w') =
      [TEXTURE_INFO.Make 1 "couch"; TEXTURE_INFO.Make 2 "wall";
       TEXTURE_INFO.Make 3 "floor";
       TEXTURE_INFO.Make 4 "door"; TEXTURE_INFO.Make 5 "door"].
Proof.
  assert (wf_textures (this (prepared_world None))) as Hwf.
  { unfold wf_textures, MAX_TEXTURES. simpl. lia. }
  destruct (texture_lookup_first_match "wall" (prepared_world None) Hwf)
    as (Hfound & _ & _).
  destruct (Hfound 1%nat (TEXTURE_INFO.Make 2 "wall")) as [HID Hslot];
    [reflexivity | reflexivity | first_entry |].
  destruct (texture_lookup_first_match "door" (prepared_world None) Hwf)
    as (_ & Habsent & Htwice).
  destruct Habsent as [HID' Hslot']; [no_entry|].
  destruct (Htwice "a.png" "b.png") as (w' & Hrun & Hcount & Hreg);
    [reflexivity | reflexivity | unfold MAX_TEXTURES; simpl; lia |].
  split; [exact HID|]. split; [exact Hslot|].
  split; [exact HID'|]. split; [exact Hslot'|].
  exists w'. split; [exact Hrun|]. split; [exact Hcount | exact Hreg].
Defined.

(** C7. From an empty registry, after any run of at most [MAX_TEXTURES]
    loads, the tags by slot are the tags of the successful loads in the
    order they were made: the i-th successful load is at slot i. In a
    well-formed registry [BindGLTextures] binds, for each slot i in order,
    the handle of entry i to texture unit [GL_TEXTURE0 + i], and makes no
    other call. *)
Theorem slots_follow_registration_order (w : World)
    (loads : list (string * string)) :
  wf_textures (this w) ->
  m_loadedTextures (this w) = 0 ->
  Z.of_nat (length loads) <= MAX_TEXTURES ->
  exists w',
    load_all loads w = Some ((fun p => loadable (outside w) p.1) <$> loads, w') /\
    TEXTURE_INFO.tag <$> registered (this w') =
      snd <$> filter (fun p => loadable (outside w) p.1 = true) loads /\
    (forall (i : nat) (tag : string),
       (snd <$> filter (fun p => loadable (outside w) p.1 = true) loads) !! i
         = Some tag ->
       exists e, m_textureIDs (this w') !! i = Some e /\
                 TEXTURE_INFO.tag e = tag /\
                 (Z.of_nat i < m_loadedTextures (this w'))) /\
    BindGLTextures w' =
      Some (tt, after w' (bind_calls_from 0 (registered (this w')))).
Proof.
  intros Hwf H0 Hroom. pose proof Hwf as [Hlen _].
  destruct (load_all_run loads w 0%nat H0)
    as (w' & Hrun & Ho & Hlen' & Hcount & Htags); [lia|].
  assert (registered (this w) = []) as Hempty
    by (unfold registered; by rewrite H0).
  rewrite Hempty in Htags. cbn [fmap list_fmap app] in Htags.
  exists w'. split; [exact Hrun|]. split; [exact Htags|]. split.
  - intros i tag Hi. rewrite <- Htags, list_lookup_fmap in Hi.
    destruct (registered (this w') !! i) as [e|] eqn:He; [|done].
    injection Hi as Hi. exists e.
    pose proof (lookup_lt_Some _ _ _ He) as Hlt.
    unfold registered in He. apply lookup_take_Some in He as [He _].
    repeat split; [done..|]. rewrite Hcount. lia.
  - apply BindGLTextures_run. split; [congruence|].
    rewrite Hcount. unfold registered. rewrite length_take. lia.
Qed.

Lemma slots_follow_registration_order_witness :
  exists w',
    load_all [("a.png", "floor"); ("gray.png", "sky"); ("missing.png", "sea");
              ("b.png", "wall")] (empty_world None) =
      Some ([true; false; false; true], w') /\
    TEXTURE_INFO.tag <$> registered (this w') = ["floor"; "wall"] /\
    BindGLTextures w' =
      Some (tt, after w' (bind_calls_from 0 (registered (this w')))).
Proof.
  destruct (slots_follow_registration_order (empty_world None)
              [("a.png", "floor"); ("gray.png", "sky"); ("missing.png", "sea");
               ("b.png", "wall")])
    as (w' & Hrun & Htags & _ & Hbind).
  - unfold wf_textures, MAX_TEXTURES. simpl. lia.
  - reflexivity.
  - unfold MAX_TEXTURES. simpl. lia.
  - exists w'. split; [exact Hrun|]. split; [exact Htags | exact Hbind].
Defined.

(** C8. For a tag that no entry of a well-formed registry carries, and
    given a shader manager, [SetShaderTexture] pushes ["bUseTexture"] as
    true (the integer 1) and then the sentinel -1 as the sampler slot. *)
Theorem SetShaderTexture_absent_tag (textureTag : string) (w : World) :
  is_Some (m_pShaderManager (this w)) ->
  wf_textures (this w) ->
  (forall e, e ∈ registered (this w) -> TEXTURE_INFO.tag e ≠ textureTag) ->
  SetShaderTexture textureTag w =
  Some (tt, after w
    [Shader (setIntValue "bUseTexture" (Z.b2z true));
     Shader (setSampler2DValue "objectTexture" (-1))]).
Proof.
  intros [p Hp] Hwf Hno.
  rewrite (emits_SetShaderTexture (this w) textureTag (or_intror Hwf) w eq_refl).
  unfold slot_of. by rewrite Hp, (first_texture_None _ _ Hno).
Qed.

Lemma SetShaderTexture_absent_tag_witness :
  SetShaderTexture "door" (prepared_world (Some 1%positive)) =
  Some (tt, after (prepared_world (Some 1%positive))
    [Shader (setIntValue "bUseTexture" 1);
     Shader (setSampler2DValue "objectTexture" (-1))]).
Proof.
  apply SetShaderTexture_absent_tag.
  - simpl. eauto.
  - unfold wf_textures, MAX_TEXTURES. simpl. lia.
  - no_entry.
Defined.

(** In a well-formed registry [DestroyGLTextures] returns, after one
    [glGenTextures] per entry and no other call; every texture name in use
    before is still in use afterwards. *)
Lemma DestroyGLTextures_generates (w : World) :
  wf_textures (this w) ->
  exists w' names,
    DestroyGLTextures w = Some (tt, w') /\
    trace w' = trace w ++ ((fun x => GL (glGenTextures 1 x)) <$> names) /\
    length names = Z.to_nat (m_loadedTextures (this w)) /\
    (forall name, name ∈ live_textures (trace w) ->
                  name ∈ live_textures (trace w')).
Proof.
  intros Hwf.
  destruct (DestroyGLTextures_run w Hwf) as (w' & names & Hrun & Htrace & Hlen).
  exists w', names. repeat split; [done..|].
  intros name Hin. rewrite Htrace. by apply live_textures_gen.
Qed.

(** C9. On the prepared scene, whose three textures have the names 1, 2
    and 3, [DestroyGLTextures] issues three [glGenTextures] and no
    [glDeleteTextures]: the registry then holds the new names 4, 5 and 6,
    and all six names are in use. *)
Theorem DestroyGLTextures_releases_nothing :
  exists w',
    DestroyGLTextures (prepared_world (Some 1%positive)) = Some (tt, w') /\
    trace w' =
      trace (prepared_world (Some 1%positive)) ++
      [GL (glGenTextures 1 4); GL (glGenTextures 1 5); GL (glGenTextures 1 6)] /\
    TEXTURE_INFO.ID <$> registered (this w') = [4; 5; 6] /\
    live_textures (trace (prepared_world (Some 1%positive))) = [3; 2; 1] /\
    live_textures (trace w') = [6; 5; 4; 3; 2; 1].
Proof. eexists. repeat split; vm_compute; reflexivity. Qed.

(** C10. With a null shader manager, [SetTransformations],
    [SetShaderColor], [SetShaderTexture] and [SetTextureUVScale] return
    and leave the world, its trace of calls included, as it was. *)
Theorem null_shader_manager_pushes_nothing (w : World) (scaleXYZ : vec3)
    (XrotationDegrees YrotationDegrees ZrotationDegrees : float)
    (positionXYZ : vec3) (r g b a : float) (textureTag : string)
    (u v : float) :
  m_pShaderManager (this w) = None ->
  SetTransformations scaleXYZ XrotationDegrees YrotationDegrees
    ZrotationDegrees positionXYZ w = Some (tt, w) /\
  SetShaderColor r g b a w = Some (tt, w) /\
  SetShaderTexture textureTag w = Some (tt, w) /\
  SetTextureUVScale u v w = Some (tt, w).
Proof.
  intros Hnull.
  unfold SetTransformations, SetShaderColor, SetShaderTexture,
    SetTextureUVScale, mbind, M_bind, get_this.
  by rewrite Hnull.
Qed.

Lemma null_shader_manager_pushes_nothing_witness :
  SetTransformations (Vec3 2 1 1) 0 90 0 (Vec3 1 0 0) (prepared_world None) =
    Some (tt, prepared_world None) /\
  SetShaderColor 1 1 1 1 (prepared_world None) = Some (tt, prepared_world None) /\
  SetShaderTexture "floor" (prepared_world None) =
    Some (tt, prepared_world None) /\
  SetTextureUVScale 2 2 (prepared_world None) = Some (tt, prepared_world None).
Proof.
  apply null_shader_manager_pushes_nothing. reflexivity.
Defined.
